(** * InvoiceIQ: the invoice dashboard's frontend handlers and SQL schema

    A shallow embedding of
    - [apps/frontend/app/invoices/[id]/page.tsx]  (module [InvoiceReview]),
    - [apps/frontend/app/page.tsx]                (module [Home]),
    - [apps/frontend/app/analytics/page.tsx]      (module [Analytics]),
    - [db/schema.sql] and the seed script         (module [Schema]),
    with the pieces of the JavaScript run time the handlers call
    (module [JS]). *)

From Stdlib Require Import ZArith List String Ascii Bool Lia.
From Stdlib Require Import Floats.
From stdpp Require Import base option list strings gmap.

Local Open Scope string_scope.
Local Open Scope Z_scope.

(** ** JavaScript numbers, truthiness and [parseFloat] *)

Module JS.

(** A JavaScript [number] is an IEEE 754 binary64 value: the kernel's
    primitive [float], with its one NaN and its two zeros. *)
Definition number : Type := float.

(** [ToBoolean] on a number: [+0], [-0] and [NaN] are falsy. *)
Definition truthy (x : number) : bool :=
  negb (PrimFloat.is_nan x || PrimFloat.is_zero x).

(** [a || b] on numbers. *)
Definition or_else (a b : number) : number :=
  if truthy a then a else b.

(** [a || b] on strings: only the empty string is falsy. *)
Definition str_or_else (a b : string) : string :=
  match a with EmptyString => b | _ => a end.

(** [a || b] where [a] may be [undefined] or [null]. *)
Definition opt_str_or_else (a : option string) (b : string) : string :=
  match a with Some s => str_or_else s b | None => b end.

(** *** [parseFloat] (ECMA-262, 19.2.4)

    Strings are kept as UTF-8 bytes; the white space that [TrimString]
    strips is matched on its encoding. *)

Definition byte_is (n : nat) (c : ascii) : bool := Nat.eqb (nat_of_ascii c) n.

(** TAB, LF, VT, FF, CR and SP. *)
Definition is_ascii_space (c : ascii) : bool :=
  let n := nat_of_ascii c in
  (Nat.leb 9 n && Nat.leb n 13) || Nat.eqb n 32.

(** The two-byte white space: U+00A0. *)
Definition is_space2 (c1 c2 : ascii) : bool :=
  byte_is 194 c1 && byte_is 160 c2.

(** The three-byte white space: U+1680, U+2000..U+200A, U+2028, U+2029,
    U+202F, U+205F, U+3000 and U+FEFF. *)
Definition is_space3 (c1 c2 c3 : ascii) : bool :=
  let n3 := nat_of_ascii c3 in
  (byte_is 225 c1 && byte_is 154 c2 && byte_is 128 c3)
  || (byte_is 226 c1 && byte_is 128 c2
      && ((Nat.leb 128 n3 && Nat.leb n3 138) || Nat.eqb n3 168
          || Nat.eqb n3 169 || Nat.eqb n3 175))
  || (byte_is 226 c1 && byte_is 129 c2 && byte_is 159 c3)
  || (byte_is 227 c1 && byte_is 128 c2 && byte_is 128 c3)
  || (byte_is 239 c1 && byte_is 187 c2 && byte_is 191 c3).

(** [TrimString(s, start)]. *)
Fixpoint trim_start (s : string) : string :=
  match s with
  | EmptyString => s
  | String c1 r1 =>
      if is_ascii_space c1 then trim_start r1
      else match r1 with
           | EmptyString => s
           | String c2 r2 =>
               if is_space2 c1 c2 then trim_start r2
               else match r2 with
                    | EmptyString => s
                    | String c3 r3 =>
                        if is_space3 c1 c2 c3 then trim_start r3 else s
                    end
           end
  end.

Definition digit_value (c : ascii) : option Z :=
  let n := nat_of_ascii c in
  if Nat.leb 48 n && Nat.leb n 57 then Some (Z.of_nat n - 48) else None.

(** The longest run of [DecimalDigits] at the head of [s]: how many
    digits, their value read in base ten from accumulator [acc], and
    what follows them. *)
Fixpoint take_digits (s : string) (count : nat) (acc : Z) : nat * Z * string :=
  match s with
  | EmptyString => (count, acc, s)
  | String c r =>
      match digit_value c with
      | Some d => take_digits r (S count) (10 * acc + d)
      | None => (count, acc, s)
      end
  end.

(** [ExponentPart], when one heads [s]: an [e] or [E], an optional
    sign and at least one digit.  Otherwise the exponent is 0 and the
    text is left alone: the parsed prefix ends before it. *)
Definition take_exponent (s : string) : Z :=
  match s with
  | String c r =>
      if byte_is 101 c || byte_is 69 c then
        let '(neg, r') :=
          match r with
          | String sg r0 =>
              if byte_is 45 sg then (true, r0)
              else if byte_is 43 sg then (false, r0)
              else (false, r)
          | EmptyString => (false, r)
          end in
        let '(n, v, _) := take_digits r' 0%nat 0 in
        match n with
        | O => 0
        | S _ => if neg then - v else v
        end
      else 0
  | EmptyString => 0
  end.

(** The binary64 value nearest to [m * 10 ^ e] (ties to even), for
    [0 <= m].  A negative [e] divides: the quotient is taken with more
    than 64 bits and a sticky last bit, which rounds as the exact
    quotient does. *)
Definition round_decimal (m e : Z) : number :=
  if m =? 0 then PrimFloat.zero
  else if 0 <=? e then
    SF2Prim (binary_normalize prec emax (m * 10 ^ e) 0 false)
  else
    let d := 10 ^ (- e) in
    let s := Z.log2 d + 64 in
    let n := Z.shiftl m s in
    let sticky := if n mod d =? 0 then 0 else 1 in
    SF2Prim (binary_normalize prec emax (2 * (n / d) + sticky) (- (s + 1)) false).

(** [StrUnsignedDecimalLiteral]: [Infinity], or digits with an optional
    fraction and exponent; [NaN] when no prefix of [s] is one. *)
Definition parse_unsigned (s : string) : number :=
  if String.prefix "Infinity" s then PrimFloat.infinity
  else
    let '(ni, vi, r) := take_digits s 0%nat 0 in
    let '(nf, v, r') :=
      match r with
      | String c r0 =>
          if byte_is 46 c then take_digits r0 0%nat vi else (0%nat, vi, r)
      | EmptyString => (0%nat, vi, r)
      end in
    match (ni + nf)%nat with
    | O => PrimFloat.nan
    | S _ => round_decimal v (take_exponent r' - Z.of_nat nf)
    end.

Definition parseFloat (input : string) : number :=
  match trim_start input with
  | String c r =>
      if byte_is 45 c then PrimFloat.opp (parse_unsigned r)
      else if byte_is 43 c then parse_unsigned r
      else parse_unsigned (String c r)
  | EmptyString => PrimFloat.nan
  end.

End JS.

(** ** Handlers that await: state setters and [fetch] *)

Module Async.

(** What awaiting a promise yields: the exception it rejects with (its
    [message]) or the value it fulfils with. *)
Inductive settled (A : Type) : Type :=
| Rejected (message : string)
| Fulfilled (value : A).
Arguments Rejected {A} message.
Arguments Fulfilled {A} value.

(** The body of an error response, of which the pages read [detail]. *)
Record ErrorBody : Type := { detail : option string }.

(** What [await fetch(...)] yields, with what [await res.json()] yields
    on the response: [fetch] itself rejects when the network fails. *)
Inductive response (A : Type) : Type :=
| NetworkError (message : string)
| NotOk (json : settled ErrorBody)
| Ok (json : settled A).
Arguments NetworkError {A} message.
Arguments NotOk {A} json.
Arguments Ok {A} json.

(** An asynchronous handler over the setters [U] of a component and the
    requests [Q] it sends: it returns, calls a setter and goes on, or
    awaits the response to a request. *)
Inductive task (U : Type) (Q : Type -> Type) (A : Type) : Type :=
| Return (a : A)
| Call (u : U) (next : task U Q A)
| Fetch {R : Type} (q : Q R) (next : response R -> task U Q A).
Arguments Return {U Q A} a.
Arguments Call {U Q A} u next.
Arguments Fetch {U Q A R} q next.

(** [t; then ...]: one task after another. *)
Fixpoint bind {U Q A B} (t : task U Q A) (k : A -> task U Q B) : task U Q B :=
  match t with
  | Return a => k a
  | Call u next => Call u (bind next k)
  | Fetch q next => Fetch q (fun r => bind (next r) k)
  end.

(** A run of a task: the component starts in state [s], setters are
    applied as they are called, and a server with state [w] answers the
    requests.  The run keeps the requests it sent, oldest first. *)
Record ran (S W : Type) (Q : Type -> Type) (A : Type) : Type := {
  result : A;
  final : S;
  world : W;
  sent : list { R : Type & Q R }
}.
Arguments result {S W Q A} r.
Arguments final {S W Q A} r.
Arguments world {S W Q A} r.
Arguments sent {S W Q A} r.

Definition server (W : Type) (Q : Type -> Type) : Type :=
  W -> forall R : Type, Q R -> response R * W.

Fixpoint run {U Q A S W} (apply : U -> S -> S) (srv : server W Q)
    (t : task U Q A) (s : S) (w : W) : ran S W Q A :=
  match t with
  | Return a => {| result := a; final := s; world := w; sent := [] |}
  | Call u next => run apply srv next (apply u s) w
  | Fetch q next =>
      let '(r, w') := srv w _ q in
      let after := run apply srv (next r) s w' in
      {| result := result after; final := final after; world := world after;
         sent := existT _ q :: sent after |}
  end.

End Async.

(** ** The invoice review page: [app/invoices/[id]/page.tsx] *)

Module InvoiceReview.
Import JS Async.

Record InvoiceItem : Type := {
  sku : option string;          (* sku?: string | null *)
  description : option string;  (* description?: string | null *)
  qty : number;
  unit_price : number;
  tax_rate : number;
  line_total : number
}.

(** [InvoiceDetail["status"]], the union of two string literals. *)
Inductive Status : Type := PENDING | APPROVED.

Record InvoiceDetail : Type := {
  id : number;
  supplier_name : option string;
  supplier_gstin : option string;
  invoice_no : string;
  invoice_date : option string;
  subtotal : number;
  tax : number;
  total : number;
  status : Status;
  items : list InvoiceItem
}.

(** [keyof InvoiceDetail] and [keyof InvoiceItem]. *)
Inductive InvoiceDetail_key : Type :=
| Key_id | Key_supplier_name | Key_supplier_gstin | Key_invoice_no
| Key_invoice_date | Key_subtotal | Key_tax | Key_total | Key_status
| Key_items.

Inductive InvoiceItem_key : Type :=
| Item_sku | Item_description | Item_qty | Item_unit_price | Item_tax_rate
| Item_line_total.

(** What a handler of the page does with the [invoice] hook: it calls
    [setInvoice] once or returns without a call.  [Untyped] stands for a
    call whose argument is no [InvoiceDetail] (a number stored under a
    key of another type, an array written past its end): TypeScript lets
    the call through, the page itself never makes one. *)
Inductive outcome : Type :=
| SetInvoice (next : InvoiceDetail)
| Unchanged
| Untyped.

Definition status_text (s : Status) : string :=
  match s with PENDING => "PENDING" | APPROVED => "APPROVED" end.

Definition status_of_text (s : string) : option Status :=
  if String.eqb s "PENDING" then Some PENDING
  else if String.eqb s "APPROVED" then Some APPROVED
  else None.

(** [{ ...invoice, [field]: value }] for a string [value]. *)
Definition spread_string (invoice : InvoiceDetail) (field : InvoiceDetail_key)
    (value : string) : option InvoiceDetail :=
  let 'Build_InvoiceDetail i sn sg no dt sub tx tot st its := invoice in
  match field with
  | Key_supplier_name => Some (Build_InvoiceDetail i (Some value) sg no dt sub tx tot st its)
  | Key_supplier_gstin => Some (Build_InvoiceDetail i sn (Some value) no dt sub tx tot st its)
  | Key_invoice_no => Some (Build_InvoiceDetail i sn sg value dt sub tx tot st its)
  | Key_invoice_date => Some (Build_InvoiceDetail i sn sg no (Some value) sub tx tot st its)
  | Key_status =>
      match status_of_text value with
      | Some st' => Some (Build_InvoiceDetail i sn sg no dt sub tx tot st' its)
      | None => None
      end
  | Key_id | Key_subtotal | Key_tax | Key_total | Key_items => None
  end.

(** [{ ...invoice, [field]: value }] for a number [value]. *)
Definition spread_number (invoice : InvoiceDetail) (field : InvoiceDetail_key)
    (value : number) : option InvoiceDetail :=
  let 'Build_InvoiceDetail i sn sg no dt sub tx tot st its := invoice in
  match field with
  | Key_id => Some (Build_InvoiceDetail value sn sg no dt sub tx tot st its)
  | Key_subtotal => Some (Build_InvoiceDetail i sn sg no dt value tx tot st its)
  | Key_tax => Some (Build_InvoiceDetail i sn sg no dt sub value tot st its)
  | Key_total => Some (Build_InvoiceDetail i sn sg no dt sub tx value st its)
  | Key_supplier_name | Key_supplier_gstin | Key_invoice_no | Key_invoice_date
  | Key_status | Key_items => None
  end.

(** [{ ...invoice, items }]. *)
Definition spread_items (invoice : InvoiceDetail) (its : list InvoiceItem)
    : InvoiceDetail :=
  {| id := id invoice; supplier_name := supplier_name invoice;
     supplier_gstin := supplier_gstin invoice; invoice_no := invoice_no invoice;
     invoice_date := invoice_date invoice; subtotal := subtotal invoice;
     tax := tax invoice; total := total invoice; status := status invoice;
     items := its |}.

Definition set_or_untyped (next : option InvoiceDetail) : outcome :=
  match next with Some n => SetInvoice n | None => Untyped end.

Definition handleFieldChange (invoice : option InvoiceDetail)
    (field : InvoiceDetail_key) (value : string) : outcome :=
  match invoice with
  | None => Unchanged
  | Some invoice => set_or_untyped (spread_string invoice field value)
  end.

Definition handleNumberChange (invoice : option InvoiceDetail)
    (field : InvoiceDetail_key) (value : string) : outcome :=
  match invoice with
  | None => Unchanged
  | Some invoice =>
      set_or_untyped (spread_number invoice field (or_else (parseFloat value) 0%float))
  end.

(** [{ ...item, [field]: value }] under the first branch of [updateItem],
    where [field] is one of the four numeric keys. *)
Definition spread_item_number (item : InvoiceItem) (field : InvoiceItem_key)
    (value : number) : InvoiceItem :=
  let 'Build_InvoiceItem sk ds q up tr lt := item in
  match field with
  | Item_qty => Build_InvoiceItem sk ds value up tr lt
  | Item_unit_price => Build_InvoiceItem sk ds q value tr lt
  | Item_tax_rate => Build_InvoiceItem sk ds q up value lt
  | Item_line_total => Build_InvoiceItem sk ds q up tr value
  | Item_sku | Item_description => item
  end.

(** The same under the [else] branch: [field] is [sku] or [description]. *)
Definition spread_item_string (item : InvoiceItem) (field : InvoiceItem_key)
    (value : string) : InvoiceItem :=
  let 'Build_InvoiceItem sk ds q up tr lt := item in
  match field with
  | Item_sku => Build_InvoiceItem (Some value) ds q up tr lt
  | Item_description => Build_InvoiceItem sk (Some value) q up tr lt
  | Item_qty | Item_unit_price | Item_tax_rate | Item_line_total => item
  end.

Definition is_numeric_key (field : InvoiceItem_key) : bool :=
  match field with
  | Item_qty | Item_unit_price | Item_tax_rate | Item_line_total => true
  | Item_sku | Item_description => false
  end.

(** [copy[index] = ...] on the copy of [invoice.items].  Within the array
    this is stdpp's list insert.  At an [index] past the end JavaScript
    extends the array, leaving holes and an object that has the one
    field only: the outcome is [Untyped]. *)
Definition updateItem (invoice : option InvoiceDetail) (index : nat)
    (field : InvoiceItem_key) (value : string) : outcome :=
  match invoice with
  | None => Unchanged
  | Some invoice =>
      let copy := items invoice in
      match copy !! index with
      | Some item =>
          let item' :=
            if is_numeric_key field
            then spread_item_number item field (or_else (parseFloat value) 0%float)
            else spread_item_string item field value in
          SetInvoice (spread_items invoice (<[index := item']> copy))
      | None => Untyped
      end
  end.

Definition blank_item : InvoiceItem :=
  {| sku := Some ""; description := Some ""; qty := 1%float;
     unit_price := 0%float; tax_rate := 0%float; line_total := 0%float |}.

Definition addItem (invoice : option InvoiceDetail) : outcome :=
  match invoice with
  | None => Unchanged
  | Some invoice =>
      SetInvoice (spread_items invoice (items invoice ++ [blank_item]))
  end.

(** [Array.prototype.filter] with a callback that reads the index. *)
Fixpoint filter_from {A : Type} (keep : A -> nat -> bool) (idx : nat)
    (l : list A) : list A :=
  match l with
  | [] => []
  | x :: r =>
      if keep x idx then x :: filter_from keep (S idx) r
      else filter_from keep (S idx) r
  end.

Definition js_filter {A : Type} (keep : A -> nat -> bool) (l : list A) : list A :=
  filter_from keep 0%nat l.

Definition removeItem (invoice : option InvoiceDetail) (index : nat) : outcome :=
  match invoice with
  | None => Unchanged
  | Some invoice =>
      if Nat.eqb (length (items invoice)) 1 then Unchanged
      else
        SetInvoice
          (spread_items invoice
             (js_filter (fun _ idx => negb (Nat.eqb idx index)) (items invoice)))
  end.

(** [Array.prototype.reduce] with an initial value. *)
Definition reduce {A B : Type} (f : B -> A -> B) (init : B) (l : list A) : B :=
  fold_left f l init.

Definition recalcTotals (invoice : option InvoiceDetail) : outcome :=
  match invoice with
  | None => Unchanged
  | Some invoice =>
      let subtotal' :=
        reduce (fun sum item => sum + qty item * unit_price item)%float
               0%float (items invoice) in
      let tax' :=
        reduce (fun sum item =>
                  sum + qty item * unit_price item * (tax_rate item / 100))%float
               0%float (items invoice) in
      let total' := (subtotal' + tax')%float in
      SetInvoice
        {| id := id invoice; supplier_name := supplier_name invoice;
           supplier_gstin := supplier_gstin invoice;
           invoice_no := invoice_no invoice;
           invoice_date := invoice_date invoice;
           subtotal := subtotal'; tax := tax'; total := total';
           status := status invoice; items := items invoice |}
  end.

Definition statusOptions : list Status := [PENDING; APPROVED].

(** The five [useState] hooks of [InvoiceReviewPage]. *)
Record state : Type := {
  invoice : option InvoiceDetail;
  loading : bool;
  saving : bool;
  error : option string;
  success : option string
}.

Inductive setter : Type :=
| setInvoice (data : InvoiceDetail)
| setLoading (b : bool)
| setSaving (b : bool)
| setError (e : option string)
| setSuccess (m : option string).

Definition apply (u : setter) (s : state) : state :=
  match u with
  | setInvoice data =>
      {| invoice := Some data; loading := loading s; saving := saving s;
         error := error s; success := success s |}
  | setLoading b =>
      {| invoice := invoice s; loading := b; saving := saving s;
         error := error s; success := success s |}
  | setSaving b =>
      {| invoice := invoice s; loading := loading s; saving := b;
         error := error s; success := success s |}
  | setError e =>
      {| invoice := invoice s; loading := loading s; saving := saving s;
         error := e; success := success s |}
  | setSuccess m =>
      {| invoice := invoice s; loading := loading s; saving := saving s;
         error := error s; success := m |}
  end.

(** What [JSON.stringify] writes for a number: [null] for NaN and the
    infinities, 0 for -0, and the number itself otherwise. *)
Definition json_number (x : number) : option number :=
  if PrimFloat.is_finite x
  then Some (if PrimFloat.is_zero x then 0%float else x)
  else None.

(** The JSON text of an item and of an invoice, read as JSON: [None] is
    [null] (for an optional text also a key that is left out). *)
Record InvoiceItem_json : Type := {
  json_sku : option string;
  json_description : option string;
  json_qty : option number;
  json_unit_price : option number;
  json_tax_rate : option number;
  json_line_total : option number
}.

Record InvoiceDetail_json : Type := {
  json_id : option number;
  json_supplier_name : option string;
  json_supplier_gstin : option string;
  json_invoice_no : string;
  json_invoice_date : option string;
  json_subtotal : option number;
  json_tax : option number;
  json_total : option number;
  json_status : string;
  json_items : list InvoiceItem_json
}.

Definition JSON_stringify_item (item : InvoiceItem) : InvoiceItem_json :=
  {| json_sku := sku item; json_description := description item;
     json_qty := json_number (qty item);
     json_unit_price := json_number (unit_price item);
     json_tax_rate := json_number (tax_rate item);
     json_line_total := json_number (line_total item) |}.

(** [JSON.stringify(payload)]. *)
Definition JSON_stringify (payload : InvoiceDetail) : InvoiceDetail_json :=
  {| json_id := json_number (id payload);
     json_supplier_name := supplier_name payload;
     json_supplier_gstin := supplier_gstin payload;
     json_invoice_no := invoice_no payload;
     json_invoice_date := invoice_date payload;
     json_subtotal := json_number (subtotal payload);
     json_tax := json_number (tax payload);
     json_total := json_number (total payload);
     json_status := status_text (status payload);
     json_items := map JSON_stringify_item (items payload) |}.

(** [fetch(`${API}/invoices/${invoiceId}`)], and the same address with
    [method: "PUT"] and the JSON text of the payload as its body. *)
Inductive request : Type -> Type :=
| GET_invoice (invoiceId : string) : request InvoiceDetail
| PUT_invoice (id : number) (body : InvoiceDetail_json) : request InvoiceDetail.

(** The effect of the page: it runs once [invoiceId] is known. *)
Definition fetchInvoice (invoiceId : option string) : task setter request unit :=
  match invoiceId with
  | None | Some EmptyString => Return tt
  | Some invoiceId =>
      Fetch (GET_invoice invoiceId) (fun res =>
        match res with
        | Ok (Fulfilled data) =>
            Call (setInvoice data) (Call (setLoading false) (Return tt))
        | NotOk _ =>
            Call (setError (Some "Invoice not found"))
              (Call (setLoading false) (Return tt))
        | Ok (Rejected m) | NetworkError m =>
            Call (setError (Some (str_or_else m "Failed to load invoice")))
              (Call (setLoading false) (Return tt))
        end)
  end.

(** The [catch] and [finally] blocks of [saveInvoice]. *)
Definition save_failed (err_message : string) : task setter request unit :=
  Call (setError (Some (str_or_else err_message "Failed to save invoice")))
    (Call (setSaving false) (Return tt)).

Section Save.

(** [new Date(text).toISOString()], of the JavaScript run time: the
    ISO text of the date, or the [RangeError] of an invalid one. *)
Variable toISOString : string -> settled string.

(** The [invoice_date] of the payload. *)
Definition payload_date (invoice_date : option string) : settled (option string) :=
  match invoice_date with
  | None | Some EmptyString => Fulfilled None
  | Some text =>
      match toISOString text with
      | Rejected m => Rejected m
      | Fulfilled iso => Fulfilled (Some (String.substring 0 10 iso))
      end
  end.

Definition saveInvoice (s : state) : task setter request unit :=
  match invoice s with
  | None => Return tt
  | Some invoice =>
      Call (setSaving true) (Call (setError None) (Call (setSuccess None)
        match payload_date (invoice_date invoice) with
        | Rejected m => save_failed m
        | Fulfilled date =>
            let payload :=
              {| id := id invoice; supplier_name := supplier_name invoice;
                 supplier_gstin := supplier_gstin invoice;
                 invoice_no := invoice_no invoice; invoice_date := date;
                 subtotal := subtotal invoice; tax := tax invoice;
                 total := total invoice; status := status invoice;
                 items := items invoice |} in
            Fetch (PUT_invoice (id invoice) (JSON_stringify payload)) (fun res =>
              match res with
              | NetworkError m => save_failed m
              | NotOk (Rejected m) => save_failed m
              | NotOk (Fulfilled err) =>
                  save_failed (opt_str_or_else (detail err) "Failed to save invoice")
              | Ok (Rejected m) => save_failed m
              | Ok (Fulfilled data) =>
                  Call (setInvoice data)
                    (Call (setSuccess (Some "Invoice updated successfully"))
                       (Call (setSaving false) (Return tt)))
              end)
        end))
  end.

(** What the user and the page can start, and what each does: a
    handler of the form hands its outcome to [setInvoice]. *)
Inductive operation : Type :=
| FetchInvoice (invoiceId : option string)
| HandleFieldChange (field : InvoiceDetail_key) (value : string)
| HandleNumberChange (field : InvoiceDetail_key) (value : string)
| UpdateItem (index : nat) (field : InvoiceItem_key) (value : string)
| AddItem
| RemoveItem (index : nat)
| RecalcTotals
| SaveInvoice.

Definition hand_over (o : outcome) : task setter request outcome :=
  match o with
  | SetInvoice next => Call (setInvoice next) (Return o)
  | Unchanged | Untyped => Return o
  end.

Definition perform (op : operation) (s : state) : task setter request outcome :=
  match op with
  | FetchInvoice invoiceId => bind (fetchInvoice invoiceId) (fun _ => Return Unchanged)
  | HandleFieldChange field value => hand_over (handleFieldChange (invoice s) field value)
  | HandleNumberChange field value => hand_over (handleNumberChange (invoice s) field value)
  | UpdateItem index field value => hand_over (updateItem (invoice s) index field value)
  | AddItem => hand_over (addItem (invoice s))
  | RemoveItem index => hand_over (removeItem (invoice s) index)
  | RecalcTotals => hand_over (recalcTotals (invoice s))
  | SaveInvoice => bind (saveInvoice s) (fun _ => Return Unchanged)
  end.

End Save.

(** *** Vocabulary of the specification *)

(** "The sum over L of [term]", in binary64 arithmetic: nothing sums
    to 0, and a list sums to the sum of what precedes its last item
    plus the term of that item. *)
Inductive sum_over (term : InvoiceItem -> number)
    : list InvoiceItem -> number -> Prop :=
| sum_over_nil : sum_over term [] 0%float
| sum_over_snoc L item s :
    sum_over term L s -> sum_over term (L ++ [item])%list (s + term item)%float.

(** The numeric field of an item that a key names. *)
Definition item_number (item : InvoiceItem) (field : InvoiceItem_key)
    : option number :=
  match field with
  | Item_qty => Some (qty item)
  | Item_unit_price => Some (unit_price item)
  | Item_tax_rate => Some (tax_rate item)
  | Item_line_total => Some (line_total item)
  | Item_sku | Item_description => None
  end.

(** The numeric field of an invoice that a key names. *)
Definition invoice_number (invoice : InvoiceDetail) (field : InvoiceDetail_key)
    : option number :=
  match field with
  | Key_id => Some (id invoice)
  | Key_subtotal => Some (subtotal invoice)
  | Key_tax => Some (tax invoice)
  | Key_total => Some (total invoice)
  | _ => None
  end.

(** The item-editing operations of the page's "Line items" card. *)
Inductive item_edit : Type :=
| Add
| Remove (index : nat)
| Update (index : nat) (field : InvoiceItem_key) (value : string).

Definition edit_items (invoice : option InvoiceDetail) (e : item_edit) : outcome :=
  match e with
  | Add => addItem invoice
  | Remove index => removeItem invoice index
  | Update index field value => updateItem invoice index field value
  end.

(** "A nonzero finite number". *)
Definition nonzero_finite (x : number) : bool :=
  PrimFloat.is_finite x && negb (PrimFloat.is_zero x).

(** The invoice of the seed script, with its two lines. *)
Definition seed_invoice : InvoiceDetail :=
  {| id := 1%float; supplier_name := Some "Acme Supplies";
     supplier_gstin := Some "29ABCDE1234F1Z5"; invoice_no := "INV-1001";
     invoice_date := Some "2025-10-01"; subtotal := 10000%float;
     tax := 1800%float; total := 11800%float; status := APPROVED;
     items :=
       [ {| sku := Some "SKU-RED-PEN"; description := Some "Red Pen";
            qty := 100%float; unit_price := 50%float; tax_rate := 18%float;
            line_total := 5900%float |};
         {| sku := Some "SKU-NOTE-A5"; description := Some "A5 Notebook";
            qty := 50%float; unit_price := 100%float; tax_rate := 18%float;
            line_total := 5900%float |} ] |}.

End InvoiceReview.

(** ** The dashboard: [app/page.tsx] *)

Module Home.
Import JS Async.

Record Invoice : Type := {
  id : number;
  supplier_name : string;
  invoice_no : string;
  total : number;
  status : string;
  created_at : string
}.

Inductive MessageType : Type := success | error | info.

(** The [File] the user picked: the page reads its [size], in bytes. *)
Record File : Type := { name : string; size : N }.

(** The five [useState] hooks of [Home]. *)
Record state : Type := {
  file : option File;
  busy : bool;
  invoices : list Invoice;
  msg : string;
  msgType : MessageType
}.

Inductive setter : Type :=
| setFile (f : option File)
| setBusy (b : bool)
| setInvoices (l : list Invoice)
| setMsg (m : string)
| setMsgType (t : MessageType).

Definition apply (u : setter) (s : state) : state :=
  match u with
  | setFile f =>
      {| file := f; busy := busy s; invoices := invoices s; msg := msg s;
         msgType := msgType s |}
  | setBusy b =>
      {| file := file s; busy := b; invoices := invoices s; msg := msg s;
         msgType := msgType s |}
  | setInvoices l =>
      {| file := file s; busy := busy s; invoices := l; msg := msg s;
         msgType := msgType s |}
  | setMsg m =>
      {| file := file s; busy := busy s; invoices := invoices s; msg := m;
         msgType := msgType s |}
  | setMsgType t =>
      {| file := file s; busy := busy s; invoices := invoices s; msg := msg s;
         msgType := t |}
  end.

(** The JSON the page reads from [GET /invoices] and [POST /extract]. *)
Record InvoicesBody : Type := { data_invoices : option (list Invoice) }.
Record ExtractBody : Type := { data_invoice_no : string; data_total : number }.

Inductive request : Type -> Type :=
| GET_invoices : request InvoicesBody
| POST_extract (formData_file : File) : request ExtractBody.

Section Handlers.

(** [Number.prototype.toFixed], of the JavaScript run time. *)
Variable toFixed : number -> nat -> string.

Definition refresh : task setter request unit :=
  Fetch GET_invoices (fun res =>
    match res with
    | Ok (Fulfilled data) =>
        Call (setInvoices (default [] (data_invoices data))) (Return tt)
    | Ok (Rejected _) | NotOk _ | NetworkError _ =>
        Call (setMsg "Failed to load invoices") (Call (setMsgType error) (Return tt))
    end).

(** The [catch] and [finally] blocks of [onUpload]. *)
Definition upload_failed (e_message : string) : task setter request unit :=
  Call (setMsg (str_or_else e_message "An error occurred"))
    (Call (setMsgType error) (Call (setBusy false) (Return tt))).

Definition onUpload (s : state) : task setter request unit :=
  match file s with
  | None =>
      Call (setMsg "Please select a file") (Call (setMsgType error) (Return tt))
  | Some file =>
      if (5 * 1024 * 1024 <? size file)%N then
        Call (setMsg "File size must be less than 5MB")
          (Call (setMsgType error) (Return tt))
      else
        Call (setBusy true) (Call (setMsg "")
          (Fetch (POST_extract file) (fun res =>
             match res with
             | NetworkError m => upload_failed m
             | NotOk (Rejected m) => upload_failed m
             | NotOk (Fulfilled error_json) =>
                 upload_failed
                   (opt_str_or_else (detail error_json) "Upload failed")
             | Ok (Rejected m) => upload_failed m
             | Ok (Fulfilled data) =>
                 Call (setMsg ("✓ Extracted invoice " ++ data_invoice_no data
                              ++ " • Total ₹" ++ toFixed (data_total data) 2))
                   (Call (setMsgType success) (Call (setFile None)
                      (bind refresh (fun _ => Call (setBusy false) (Return tt)))))
             end)))
  end.

End Handlers.

(** A server that cannot be reached: every [fetch] rejects. *)
Definition offline : server unit request :=
  fun w _ _ => (NetworkError "Failed to fetch", w).

(** The page before a file is picked, and after [f] was picked. *)
Definition idle : state :=
  {| file := None; busy := false; invoices := []; msg := ""; msgType := info |}.

Definition picked (f : File) : state :=
  {| file := Some f; busy := false; invoices := []; msg := ""; msgType := info |}.

Definition big_scan : File := {| name := "scan.pdf"; size := 5242881 |}.

End Home.

(** ** The analytics page: [app/analytics/page.tsx] *)

Module Analytics.
Import JS Async.

Record SeriesPoint : Type := { label : string; value : number }.
Record TopSku : Type := { sku : string; total_qty : number; revenue : number }.
Record TaxBreakdown : Type := { tax_rate : number; tax_amount : number }.
Record DateRange : Type := { from : option string; to : option string }.

Record AnalyticsResponse : Type := {
  date_range : DateRange;
  monthly_totals : list SeriesPoint;
  top_skus : list TopSku;
  tax_breakdown : list TaxBreakdown
}.

Record state : Type := {
  data : option AnalyticsResponse;
  loading : bool;
  error : option string
}.

Inductive setter : Type :=
| setData (d : AnalyticsResponse)
| setLoading (b : bool)
| setError (e : option string).

Definition apply (u : setter) (s : state) : state :=
  match u with
  | setData d => {| data := Some d; loading := loading s; error := error s |}
  | setLoading b => {| data := data s; loading := b; error := error s |}
  | setError e => {| data := data s; loading := loading s; error := e |}
  end.

Inductive request : Type -> Type :=
| GET_analytics_summary : request AnalyticsResponse.

(** The one effect of the page. *)
Definition fetchAnalytics : task setter request unit :=
  Fetch GET_analytics_summary (fun res =>
    match res with
    | Ok (Fulfilled d) => Call (setData d) (Call (setLoading false) (Return tt))
    | NotOk _ =>
        Call (setError (Some "Failed to load analytics"))
          (Call (setLoading false) (Return tt))
    | Ok (Rejected m) | NetworkError m =>
        Call (setError (Some (str_or_else m "Failed to load analytics")))
          (Call (setLoading false) (Return tt))
    end).

End Analytics.

(** ** The database: [db/schema.sql] and the seed script *)

Module Schema.

(** *** The data definition statements, as data *)

Inductive sql_type : Type :=
| INT
| VARCHAR (n : nat)
| DECIMAL (precision scale : nat)
| DATE
| TIMESTAMP
| ENUM (labels : list string).

Inductive sql_default : Type :=
| DEFAULT_number (n : Z)
| DEFAULT_text (s : string)
| DEFAULT_CURRENT_TIMESTAMP.

Record column : Type := {
  col_name : string;
  col_type : sql_type;
  NOT_NULL : bool;
  AUTO_INCREMENT : bool;
  PRIMARY_KEY : bool;
  DEFAULT : option sql_default
}.

Inductive referential_action : Type :=
| RESTRICT | CASCADE | SET_NULL | NO_ACTION.

(** [FOREIGN KEY (fk_column) REFERENCES fk_table(fk_references) ON DELETE ...].
    A key declared without [ON DELETE] has the action [RESTRICT]. *)
Record foreign_key : Type := {
  fk_column : string;
  fk_table : string;
  fk_references : string;
  ON_DELETE : referential_action
}.

Record table : Type := {
  table_name : string;
  columns : list column;
  foreign_keys : list foreign_key
}.

Record index : Type := {
  index_name : string;
  index_table : string;
  index_columns : list string
}.

Record schema : Type := { tables : list table; indexes : list index }.

(** A column with a type and no other clause. *)
Definition plain (name : string) (type : sql_type) : column :=
  {| col_name := name; col_type := type; NOT_NULL := false;
     AUTO_INCREMENT := false; PRIMARY_KEY := false; DEFAULT := None |}.

(** [id INT AUTO_INCREMENT PRIMARY KEY]. *)
Definition id_column : column :=
  {| col_name := "id"; col_type := INT; NOT_NULL := false;
     AUTO_INCREMENT := true; PRIMARY_KEY := true; DEFAULT := None |}.

Definition vendors : table :=
  {| table_name := "vendors";
     columns :=
       [ id_column;
         {| col_name := "name"; col_type := VARCHAR 255; NOT_NULL := true;
            AUTO_INCREMENT := false; PRIMARY_KEY := false; DEFAULT := None |};
         plain "gstin" (VARCHAR 32);
         plain "rating" (DECIMAL 4 2);
         {| col_name := "risk_score"; col_type := DECIMAL 5 2; NOT_NULL := false;
            AUTO_INCREMENT := false; PRIMARY_KEY := false;
            DEFAULT := Some (DEFAULT_number 0) |} ];
     foreign_keys := [] |}.

Definition invoices : table :=
  {| table_name := "invoices";
     columns :=
       [ id_column;
         plain "supplier_name" (VARCHAR 255);
         plain "supplier_gstin" (VARCHAR 32);
         plain "invoice_no" (VARCHAR 64);
         plain "invoice_date" DATE;
         plain "subtotal" (DECIMAL 12 2);
         plain "tax" (DECIMAL 12 2);
         plain "total" (DECIMAL 12 2);
         {| col_name := "status"; col_type := ENUM ["PENDING"; "APPROVED"];
            NOT_NULL := false; AUTO_INCREMENT := false; PRIMARY_KEY := false;
            DEFAULT := Some (DEFAULT_text "PENDING") |};
         {| col_name := "created_at"; col_type := TIMESTAMP; NOT_NULL := false;
            AUTO_INCREMENT := false; PRIMARY_KEY := false;
            DEFAULT := Some DEFAULT_CURRENT_TIMESTAMP |} ];
     foreign_keys := [] |}.

Definition invoice_items : table :=
  {| table_name := "invoice_items";
     columns :=
       [ id_column;
         {| col_name := "invoice_id"; col_type := INT; NOT_NULL := true;
            AUTO_INCREMENT := false; PRIMARY_KEY := false; DEFAULT := None |};
         plain "sku" (VARCHAR 64);
         plain "description" (VARCHAR 255);
         plain "qty" (DECIMAL 12 2);
         plain "unit_price" (DECIMAL 12 2);
         plain "tax_rate" (DECIMAL 5 2);
         plain "line_total" (DECIMAL 12 2) ];
     foreign_keys :=
       [ {| fk_column := "invoice_id"; fk_table := "invoices";
            fk_references := "id"; ON_DELETE := CASCADE |} ] |}.

Definition schema_sql : schema :=
  {| tables := [vendors; invoices; invoice_items];
     indexes :=
       [ {| index_name := "idx_invoices_gstin_date"; index_table := "invoices";
            index_columns := ["supplier_gstin"; "invoice_date"] |};
         {| index_name := "idx_items_sku"; index_table := "invoice_items";
            index_columns := ["sku"] |} ] |}.

Definition find_table (s : schema) (t : string) : option table :=
  List.find (fun tb => String.eqb (table_name tb) t) (tables s).

Definition find_column (s : schema) (t c : string) : option column :=
  tb ← find_table s t;
  List.find (fun col => String.eqb (col_name col) c) (columns tb).

(** *** Rows and the constraints a schema puts on them *)

(** A stored value; a [DECIMAL(p,s)] is kept as its digits, [unscaled],
    with [s] of them after the point. *)
Inductive value : Type :=
| NULL
| Int (z : Z)
| Text (s : string)
| Dec (unscaled : Z) (scale : nat).

#[export] Instance value_eq_dec : EqDecision value.
Proof. solve_decision. Defined.

Definition is_null (v : value) : bool :=
  match v with NULL => true | _ => false end.

(** The cell of [r] under column [c]; a column the row lacks is NULL. *)
Definition cell (r : gmap string value) (c : string) : value :=
  default NULL (r !! c).

(** The rows of table [t]. *)
Definition rows (db : gmap string (list (gmap string value))) (t : string)
    : list (gmap string value) :=
  default [] (db !! t).

(** The values a column type holds.  An ENUM holds its labels. *)
Definition admits (ty : sql_type) (v : value) : bool :=
  match v, ty with
  | NULL, _ => true
  | Int _, INT => true
  | Text s, VARCHAR n => Nat.leb (String.length s) n
  | Text _, (DATE | TIMESTAMP) => true
  | Text s, ENUM labels => bool_decide (s ∈ labels)
  | Dec u sc, DECIMAL p s => Nat.eqb sc s && (Z.abs u <? 10 ^ Z.of_nat p)
  | _, _ => false
  end.

Definition column_holds (col : column) (r : gmap string value) : bool :=
  admits (col_type col) (cell r (col_name col))
  && (negb (NOT_NULL col || PRIMARY_KEY col) || negb (is_null (cell r (col_name col)))).

(** No two rows share a value under a primary key column. *)
Definition key_unique (col : column) (rs : list (gmap string value)) : bool :=
  negb (PRIMARY_KEY col)
  || bool_decide (NoDup (map (fun r => cell r (col_name col)) rs)).

(** [child] refers, through [fk], to one of the rows [parents]. *)
Definition refers (fk : foreign_key) (parents : list (gmap string value))
    (child : gmap string value) : bool :=
  negb (is_null (cell child (fk_column fk)))
  && existsb (fun p => bool_decide (cell p (fk_references fk)
                                    = cell child (fk_column fk)))
             parents.

Definition key_resolves (db : gmap string (list (gmap string value)))
    (fk : foreign_key) (child : gmap string value) : bool :=
  is_null (cell child (fk_column fk)) || refers fk (rows db (fk_table fk)) child.

(** The rows [rs] of table [tb] hold values of the column types, none
    NULL where the column forbids it, and primary keys are unique. *)
Definition columns_hold (tb : table) (rs : list (gmap string value)) : bool :=
  forallb (fun col => forallb (column_holds col) rs && key_unique col rs)
          (columns tb).

(** Every foreign key of every row of [rs] is NULL or finds its row. *)
Definition keys_resolve (db : gmap string (list (gmap string value)))
    (tb : table) (rs : list (gmap string value)) : bool :=
  forallb (fun fk => forallb (key_resolves db fk) rs) (foreign_keys tb).

Definition table_satisfied (db : gmap string (list (gmap string value)))
    (tb : table) : bool :=
  columns_hold tb (rows db (table_name tb))
  && keys_resolve db tb (rows db (table_name tb)).

Definition satisfies (s : schema) (db : gmap string (list (gmap string value)))
    : bool :=
  forallb (table_satisfied db) (tables s).

(** *** [DELETE FROM t WHERE victim] *)

(** The foreign keys of the schema that reference table [parent], each
    with the table that declares it. *)
Definition referencing (s : schema) (parent : string)
    : list (string * foreign_key) :=
  flat_map
    (fun tb =>
       map (pair (table_name tb))
           (List.filter (fun fk => String.eqb (fk_table fk) parent)
                        (foreign_keys tb)))
    (tables s).

(** The rows of [t] that [victim] selects are deleted after every
    foreign key that references [t] has acted on the rows that refer to
    them: [CASCADE] deletes those rows in turn, [SET NULL] clears their
    key, [RESTRICT] and [NO ACTION] refuse the statement when there is
    one.  [fuel] bounds how deep cascades nest. *)
Fixpoint delete_rows (fuel : nat) (s : schema) (t : string)
    (victim : gmap string value -> bool)
    (db : gmap string (list (gmap string value)))
    : option (gmap string (list (gmap string value))) :=
  match fuel with
  | O => None
  | S fuel' =>
      let dead := List.filter victim (rows db t) in
      let act (acc : option (gmap string (list (gmap string value))))
              (ref : string * foreign_key) :=
        db0 ← acc;
        match ON_DELETE ref.2 with
        | CASCADE => delete_rows fuel' s ref.1 (refers ref.2 dead) db0
        | SET_NULL =>
            Some (<[ref.1 :=
                     map (fun r => if refers ref.2 dead r
                                   then <[fk_column ref.2 := NULL]> r else r)
                         (rows db0 ref.1)]> db0)
        | RESTRICT | NO_ACTION =>
            if existsb (refers ref.2 dead) (rows db0 ref.1) then None
            else Some db0
        end in
      db1 ← fold_left act (referencing s t) (Some db);
      Some (<[t := List.filter (fun r => negb (victim r)) (rows db1 t)]> db1)
  end.

(** InnoDB nests cascades at most 15 deep. *)
Definition DELETE_FROM (s : schema) (t : string)
    (victim : gmap string value -> bool)
    (db : gmap string (list (gmap string value)))
    : option (gmap string (list (gmap string value))) :=
  delete_rows 16 s t victim db.

(** [WHERE id = k]. *)
Definition id_is (k : Z) (r : gmap string value) : bool :=
  bool_decide (cell r "id" = Int k).

(** "Deleting an invoice": [DELETE FROM invoices WHERE id = k]. *)
Definition delete_invoice (k : Z) (db : gmap string (list (gmap string value)))
    : option (gmap string (list (gmap string value))) :=
  DELETE_FROM schema_sql "invoices" (id_is k) db.

(** *** The seed script

    The rows it leaves in an empty database, created at [now]: the ids
    count from 1. *)
Definition seed (now : string) : gmap string (list (gmap string value)) :=
  list_to_map
    [ ("vendors",
       [ list_to_map
           [ ("id", Int 1); ("name", Text "Acme Supplies");
             ("gstin", Text "29ABCDE1234F1Z5"); ("rating", Dec 450 2);
             ("risk_score", Dec 1200 2) ];
         list_to_map
           [ ("id", Int 2); ("name", Text "Globex Retail");
             ("gstin", Text "27PQRSX9876L1Z3"); ("rating", Dec 410 2);
             ("risk_score", Dec 800 2) ] ]);
      ("invoices",
       [ list_to_map
           [ ("id", Int 1); ("supplier_name", Text "Acme Supplies");
             ("supplier_gstin", Text "29ABCDE1234F1Z5");
             ("invoice_no", Text "INV-1001");
             ("invoice_date", Text "2025-10-01");
             ("subtotal", Dec 1000000 2); ("tax", Dec 180000 2);
             ("total", Dec 1180000 2); ("status", Text "APPROVED");
             ("created_at", Text now) ] ]);
      ("invoice_items",
       [ list_to_map
           [ ("id", Int 1); ("invoice_id", Int 1); ("sku", Text "SKU-RED-PEN");
             ("description", Text "Red Pen"); ("qty", Dec 10000 2);
             ("unit_price", Dec 5000 2); ("tax_rate", Dec 1800 2);
             ("line_total", Dec 590000 2) ];
         list_to_map
           [ ("id", Int 2); ("invoice_id", Int 1); ("sku", Text "SKU-NOTE-A5");
             ("description", Text "A5 Notebook"); ("qty", Dec 5000 2);
             ("unit_price", Dec 10000 2); ("tax_rate", Dec 1800 2);
             ("line_total", Dec 590000 2) ] ]) ].

End Schema.

(** ** What the pages show *)

Module InvoiceReviewView.
Import JS InvoiceReview.

(** The hooks at the first render. *)
Definition initial : state :=
  {| invoice := None; loading := true; saving := false; error := None;
     success := None |}.

(** The three returns of [InvoiceReviewPage]. *)
Inductive screen : Type :=
| Loading_invoice
| Not_found (message : string)
| Review_form (invoice : InvoiceDetail).

Definition render (s : state) : screen :=
  if loading s then Loading_invoice
  else match invoice s with
       | None => Not_found (opt_str_or_else (error s) "Invoice not found")
       | Some invoice => Review_form invoice
       end.

End InvoiceReviewView.

Module AnalyticsView.
Import JS Analytics.

(** The hooks at the first render. *)
Definition initial : state := {| data := None; loading := true; error := None |}.

(** The three returns of [AnalyticsPage]. *)
Inductive screen : Type :=
| Loading_analytics
| Unavailable (message : string)
| Charts (data : AnalyticsResponse).

Definition render (s : state) : screen :=
  if loading s then Loading_analytics
  else match data s with
       | None => Unavailable (opt_str_or_else (error s) "Analytics unavailable")
       | Some d => Charts d
       end.

End AnalyticsView.

(** ** Edits of the items, one after the other *)

Module InvoiceReviewRuns.
Import InvoiceReview.

(** The invoice of the page once a handler has returned: [setInvoice]
    replaces it.  There is none after an untyped call. *)
Definition after (invoice : InvoiceDetail) (o : outcome) : option InvoiceDetail :=
  match o with
  | SetInvoice next => Some next
  | Unchanged => Some invoice
  | Untyped => None
  end.

(** The edits [es], each handled on the invoice the one before left, up
    to the first [updateItem] past the end of the list: there JavaScript
    grows the array, with holes and an item of one field, and what the
    page holds is no [InvoiceDetail] any more (see [outcome]); the result
    is [None]. *)
Fixpoint edit_all (invoice : InvoiceDetail) (es : list item_edit)
    : option InvoiceDetail :=
  match es with
  | [] => Some invoice
  | e :: rest =>
      match after invoice (edit_items (Some invoice) e) with
      | Some next => edit_all next rest
      | None => None
      end
  end.

End InvoiceReviewRuns.

(* ================================================================== *)
(** * Properties *)

Module JSFacts.
Import JS.

(** [parseFloat] on the texts a number input can hold, and on others. *)
Example parseFloat_decimal : parseFloat "12.5" = 12.5%float.
Proof. vm_compute. reflexivity. Qed.

Example parseFloat_prefix : parseFloat "  42px" = 42%float.
Proof. vm_compute. reflexivity. Qed.

Example parseFloat_exponent : parseFloat "-.5e-3" = (-0x1.0624dd2f1a9fcp-11)%float.
Proof. vm_compute. reflexivity. Qed.

Example parseFloat_ties_to_even :
  parseFloat "9007199254740993" = 9007199254740992%float.
Proof. vm_compute. reflexivity. Qed.

Example parseFloat_empty : Prim2SF (parseFloat "") = S754_nan.
Proof. vm_compute. reflexivity. Qed.

Example parseFloat_text : Prim2SF (parseFloat "abc") = S754_nan.
Proof. vm_compute. reflexivity. Qed.

Example parseFloat_overflow : parseFloat "1e999" = PrimFloat.infinity.
Proof. vm_compute. reflexivity. Qed.

Example parseFloat_negative_zero : Prim2SF (parseFloat "-0") = S754_zero true.
Proof. vm_compute. reflexivity. Qed.

Example or_else_negative_zero :
  Prim2SF (or_else (parseFloat "-0") 0%float) = S754_zero false.
Proof. vm_compute. reflexivity. Qed.

End JSFacts.

Module InvoiceReviewFacts.
Import JS InvoiceReview.

Lemma reduce_snoc {A B : Type} (f : B -> A -> B) (init : B) (l : list A) (x : A) :
  reduce f init (l ++ [x]) = f (reduce f init l) x.
Proof. unfold reduce. now rewrite fold_left_app. Qed.

Lemma reduce_sum_over (term : InvoiceItem -> number) (L : list InvoiceItem) :
  sum_over term L (reduce (fun sum item => sum + term item)%float 0%float L).
Proof.
  induction L as [| item L IH] using rev_ind.
  - constructor.
  - rewrite reduce_snoc. now constructor.
Qed.

(** [sum_over] names one number per list. *)
Lemma sum_over_functional term L s1 s2 :
  sum_over term L s1 -> sum_over term L s2 -> s1 = s2.
Proof.
  intros H1. revert s2.
  induction H1 as [| L item s H IH]; intros s2 H2.
  - inversion H2 as [| L' item' s' H' Heq]; [reflexivity |].
    now destruct L'.
  - inversion H2 as [Heq | L' item' s' H' Heq].
    + now destruct L.
    + apply app_inj_tail in Heq as [-> ->].
      now rewrite (IH _ H').
Qed.

Example recalcTotals_seed :
  recalcTotals (Some seed_invoice) = SetInvoice seed_invoice.
Proof. vm_compute. reflexivity. Qed.

(** C1. [recalcTotals] sets [subtotal] to the sum over the items of
    qty * unit_price, [tax] to the sum over the items of
    qty * unit_price * (tax_rate / 100), and [total] to subtotal + tax;
    the items and every other field of the invoice stay as they were. *)
Theorem recalcTotals_spec (invoice : InvoiceDetail) :
  exists next,
    recalcTotals (Some invoice) = SetInvoice next
    /\ sum_over (fun item => qty item * unit_price item)%float
                (items invoice) (subtotal next)
    /\ sum_over (fun item => qty item * unit_price item * (tax_rate item / 100))%float
                (items invoice) (tax next)
    /\ total next = (subtotal next + tax next)%float
    /\ items next = items invoice
    /\ id next = id invoice
    /\ supplier_name next = supplier_name invoice
    /\ supplier_gstin next = supplier_gstin invoice
    /\ invoice_no next = invoice_no invoice
    /\ invoice_date next = invoice_date invoice
    /\ status next = status invoice.
Proof.
  eexists. split; [reflexivity |]. cbn.
  split; [apply reduce_sum_over |].
  split; [apply (reduce_sum_over
                   (fun item => qty item * unit_price item * (tax_rate item / 100))%float) |].
  repeat split.
Qed.

(** C2. The editing operations do not keep [total = subtotal + tax]:
    the seed invoice satisfies it, and an edit of [subtotal], of [tax]
    or of [total] through [handleNumberChange] each leaves a state that
    does not. *)
Theorem handleNumberChange_breaks_total :
  exists invoice,
    total invoice = (subtotal invoice + tax invoice)%float
    /\ (exists value next,
          handleNumberChange (Some invoice) Key_subtotal value = SetInvoice next
          /\ total next <> (subtotal next + tax next)%float)
    /\ (exists value next,
          handleNumberChange (Some invoice) Key_tax value = SetInvoice next
          /\ total next <> (subtotal next + tax next)%float)
    /\ (exists value next,
          handleNumberChange (Some invoice) Key_total value = SetInvoice next
          /\ total next <> (subtotal next + tax next)%float).
Proof.
  exists seed_invoice. split; [vm_compute; reflexivity |].
  repeat split.
  - exists "200". eexists. split; [vm_compute; reflexivity |]. cbn.
    intros H. apply (f_equal Prim2SF) in H. vm_compute in H. discriminate.
  - exists "5". eexists. split; [vm_compute; reflexivity |]. cbn.
    intros H. apply (f_equal Prim2SF) in H. vm_compute in H. discriminate.
  - exists "1". eexists. split; [vm_compute; reflexivity |]. cbn.
    intros H. apply (f_equal Prim2SF) in H. vm_compute in H. discriminate.
Qed.

(** C3. On [subtotal], [tax] and [total], [handleNumberChange] writes
    the named field and nothing else: [total] is not recomputed after an
    edit of [subtotal] or [tax], and the items and the other fields are
    those of the invoice before. *)
Theorem handleNumberChange_frame (invoice : InvoiceDetail) (value : string) :
  handleNumberChange (Some invoice) Key_subtotal value
  = SetInvoice
      {| id := id invoice; supplier_name := supplier_name invoice;
         supplier_gstin := supplier_gstin invoice;
         invoice_no := invoice_no invoice; invoice_date := invoice_date invoice;
         subtotal := or_else (parseFloat value) 0%float;
         tax := tax invoice; total := total invoice;
         status := status invoice; items := items invoice |}
  /\ handleNumberChange (Some invoice) Key_tax value
     = SetInvoice
         {| id := id invoice; supplier_name := supplier_name invoice;
            supplier_gstin := supplier_gstin invoice;
            invoice_no := invoice_no invoice; invoice_date := invoice_date invoice;
            subtotal := subtotal invoice;
            tax := or_else (parseFloat value) 0%float;
            total := total invoice;
            status := status invoice; items := items invoice |}
  /\ handleNumberChange (Some invoice) Key_total value
     = SetInvoice
         {| id := id invoice; supplier_name := supplier_name invoice;
            supplier_gstin := supplier_gstin invoice;
            invoice_no := invoice_no invoice; invoice_date := invoice_date invoice;
            subtotal := subtotal invoice; tax := tax invoice;
            total := or_else (parseFloat value) 0%float;
            status := status invoice; items := items invoice |}.
Proof. destruct invoice. repeat split. Qed.

Lemma spread_item_number_reads item field v :
  is_numeric_key field = true ->
  item_number (spread_item_number item field v) field = Some v
  /\ (forall f, f <> field ->
        item_number (spread_item_number item field v) f = item_number item f)
  /\ sku (spread_item_number item field v) = sku item
  /\ description (spread_item_number item field v) = description item.
Proof.
  destruct item, field; cbn; try discriminate; intros _;
    (repeat split; try reflexivity);
    intros f Hf; destruct f; try reflexivity; congruence.
Qed.

(** C4. At a valid index [i], [updateItem] on [qty], [unit_price] or
    [tax_rate] changes that one field of item [i]: the item keeps its
    other fields, its [line_total] among them, the other items and the
    length of the list stay, and so do the fields of the invoice. *)
Theorem updateItem_frame (invoice : InvoiceDetail) (i : nat) (item : InvoiceItem)
    (field : InvoiceItem_key) (value : string) :
  items invoice !! i = Some item ->
  field = Item_qty \/ field = Item_unit_price \/ field = Item_tax_rate ->
  exists next item',
    updateItem (Some invoice) i field value = SetInvoice next
    /\ items next !! i = Some item'
    /\ item_number item' field = Some (or_else (parseFloat value) 0%float)
    /\ (forall f, f <> field -> item_number item' f = item_number item f)
    /\ line_total item' = line_total item
    /\ sku item' = sku item /\ description item' = description item
    /\ length (items next) = length (items invoice)
    /\ (forall j, j <> i -> items next !! j = items invoice !! j)
    /\ subtotal next = subtotal invoice
    /\ tax next = tax invoice
    /\ total next = total invoice
    /\ id next = id invoice
    /\ supplier_name next = supplier_name invoice
    /\ supplier_gstin next = supplier_gstin invoice
    /\ invoice_no next = invoice_no invoice
    /\ invoice_date next = invoice_date invoice
    /\ status next = status invoice.
Proof.
  intros Hi Hfield.
  assert (Hnum : is_numeric_key field = true)
    by (destruct Hfield as [-> | [-> | ->]]; reflexivity).
  destruct (spread_item_number_reads item field
              (or_else (parseFloat value) 0%float) Hnum)
    as (Hset & Hothers & Hsku & Hdescr).
  unfold updateItem. rewrite Hi, Hnum.
  eexists. eexists. split; [reflexivity |]. cbn.
  split; [apply list_lookup_insert_eq; now apply lookup_lt_Some with item |].
  split; [exact Hset |]. split; [exact Hothers |].
  split.
  { assert (Hlt : Item_line_total <> field)
      by (destruct Hfield as [-> | [-> | ->]]; discriminate).
    specialize (Hothers _ Hlt). cbn in Hothers. congruence. }
  split; [exact Hsku |]. split; [exact Hdescr |].
  split; [apply length_insert |].
  split; [intros j Hj; apply list_lookup_insert_ne; congruence |].
  repeat split.
Qed.

Lemma updateItem_frame_witness :
  exists next item',
    updateItem (Some seed_invoice) 1 Item_qty "75" = SetInvoice next
    /\ items next !! 1%nat = Some item'
    /\ qty item' = 75%float
    /\ line_total item' = 5900%float
    /\ total next = 11800%float.
Proof.
  destruct (updateItem_frame seed_invoice 1
              {| sku := Some "SKU-NOTE-A5"; description := Some "A5 Notebook";
                 qty := 50%float; unit_price := 100%float;
                 tax_rate := 18%float; line_total := 5900%float |}
              Item_qty "75" eq_refl (or_introl eq_refl))
    as (next & item' & Hrun & Hat & Hqty & _ & Hline & _ & _ & _ & _ & _ & _ & Htotal & _).
  exists next, item'. repeat split; try assumption.
  cbn in Hqty. injection Hqty as ->. vm_compute. reflexivity.
Defined.

Lemma filter_from_keeps_all {A : Type} (keep : A -> nat -> bool) (k : nat)
    (l : list A) :
  (forall x idx, (k <= idx)%nat -> keep x idx = true) ->
  filter_from keep k l = l.
Proof.
  revert k. induction l as [| x r IH]; intros k Hkeep; cbn; [reflexivity |].
  rewrite Hkeep by lia. f_equal. apply IH. intros y idx Hidx. apply Hkeep. lia.
Qed.

Lemma filter_from_drops_one {A : Type} (k i : nat) (l : list A) :
  filter_from (fun _ idx => negb (Nat.eqb idx (k + i))) k l
  = (take i l ++ drop (S i) l)%list.
Proof.
  revert k i. induction l as [| x r IH]; intros k i; cbn.
  - now destruct i.
  - destruct i as [| i]; cbn.
    + replace (k + 0)%nat with k by lia. rewrite Nat.eqb_refl. cbn.
      rewrite drop_0. apply filter_from_keeps_all.
      intros _ idx Hidx. apply negb_true_iff, Nat.eqb_neq. lia.
    + destruct (Nat.eqb_spec k (k + S i)) as [Heq | _]; [lia |]. cbn.
      f_equal. replace (k + S i)%nat with (S k + i)%nat by lia. apply IH.
Qed.

Lemma js_filter_removes {A : Type} (index : nat) (l : list A) :
  js_filter (fun _ idx => negb (Nat.eqb idx index)) l
  = (take index l ++ drop (S index) l)%list.
Proof. apply (filter_from_drops_one 0 index l). Qed.

Lemma length_without {A : Type} (index : nat) (l : list A) :
  (index < length l)%nat ->
  length (take index l ++ drop (S index) l)%list = (length l - 1)%nat.
Proof. intros H. rewrite length_app, length_take, length_drop. lia. Qed.

(** C8. The item-editing operations never empty a list of items.
    [removeItem] does nothing on a list of one item; on a longer list it
    removes the item at a valid index and no other; [addItem] appends one
    item with qty 1 and unit_price, tax_rate and line_total 0. *)
Theorem items_never_emptied (invoice : InvoiceDetail) :
  (forall index,
      length (items invoice) = 1%nat ->
      removeItem (Some invoice) index = Unchanged)
  /\ (forall index,
        (2 <= length (items invoice))%nat ->
        (index < length (items invoice))%nat ->
        exists next,
          removeItem (Some invoice) index = SetInvoice next
          /\ items next
             = (take index (items invoice) ++ drop (S index) (items invoice))%list
          /\ length (items next) = (length (items invoice) - 1)%nat
          /\ spread_items next (items invoice) = invoice)
  /\ (exists next item,
        addItem (Some invoice) = SetInvoice next
        /\ items next = (items invoice ++ [item])%list
        /\ qty item = 1%float /\ unit_price item = 0%float
        /\ tax_rate item = 0%float /\ line_total item = 0%float
        /\ spread_items next (items invoice) = invoice)
  /\ (forall e next,
        items invoice <> [] ->
        edit_items (Some invoice) e = SetInvoice next ->
        items next <> []).
Proof.
  split; [| split; [| split]].
  - intros index H1. unfold removeItem. now rewrite H1.
  - intros index H2 Hlt. unfold removeItem.
    destruct (Nat.eqb_spec (length (items invoice)) 1) as [H1 | _]; [lia |].
    eexists. split; [reflexivity |]. cbn.
    rewrite js_filter_removes.
    split; [reflexivity |]. split; [now apply length_without |].
    now destruct invoice.
  - eexists. eexists. split; [reflexivity |]. cbn.
    repeat split. now destruct invoice.
  - intros e next Hne Hrun Hnil.
    apply (f_equal (@length _)) in Hnil. cbn in Hnil.
    assert (Hpos : (0 < length (items invoice))%nat)
      by (destruct (items invoice); [congruence | cbn; lia]).
    destruct e as [| index | index field value]; cbn in Hrun.
    + injection Hrun as <-. cbn in Hnil. rewrite length_app in Hnil. cbn in Hnil. lia.
    + destruct (Nat.eqb_spec (length (items invoice)) 1) as [H1 | Hn1];
        [discriminate |].
      injection Hrun as <-. cbn in Hnil.
      rewrite js_filter_removes, length_app, length_take, length_drop in Hnil. lia.
    + destruct (items invoice !! index); [| discriminate].
      injection Hrun as <-. cbn in Hnil. rewrite length_insert in Hnil. lia.
Qed.

Lemma items_never_emptied_witness :
  removeItem (Some (spread_items seed_invoice [blank_item])) 0 = Unchanged
  /\ (exists next,
        removeItem (Some seed_invoice) 0 = SetInvoice next
        /\ length (items next) = 1%nat)
  /\ (exists next,
        edit_items (Some seed_invoice) (Remove 1) = SetInvoice next
        /\ items next <> []).
Proof.
  split; [| split].
  - apply (proj1 (items_never_emptied (spread_items seed_invoice [blank_item]))).
    reflexivity.
  - destruct (proj1 (proj2 (items_never_emptied seed_invoice)) 0%nat)
      as (next & Hrun & _ & Hlen & _); [cbn; lia | cbn; lia |].
    exists next. split; [exact Hrun | exact Hlen].
  - eexists. split; [reflexivity |].
    apply (proj2 (proj2 (proj2 (items_never_emptied seed_invoice))) (Remove 1)).
    + discriminate.
    + reflexivity.
Defined.

Lemma or_else_zero_cases (p : number) :
  or_else p 0%float
  = if (PrimFloat.is_nan p || PrimFloat.is_zero p)%bool then 0%float else p.
Proof. unfold or_else, truthy. now destruct (_ || _)%bool. Qed.

Lemma or_else_zero_not_nan (p : number) :
  PrimFloat.is_nan (or_else p 0%float) = false.
Proof.
  rewrite or_else_zero_cases.
  destruct (PrimFloat.is_nan p) eqn:Hnan, (PrimFloat.is_zero p);
    cbn [orb]; try reflexivity.
  exact Hnan.
Qed.

(** C10, as the specification states it, fails: [parseFloat "Infinity"]
    is no nonzero finite number, and [handleNumberChange] stores it,
    not 0.  A literal that overflows, such as "1e999", does the same
    through [updateItem]. *)
Lemma infinity_is_stored :
  nonzero_finite (parseFloat "Infinity") = false
  /\ (exists next,
        handleNumberChange (Some seed_invoice) Key_subtotal "Infinity"
        = SetInvoice next
        /\ subtotal next = PrimFloat.infinity
        /\ subtotal next
           <> (if nonzero_finite (parseFloat "Infinity")
               then parseFloat "Infinity" else 0%float))
  /\ (exists next item',
        updateItem (Some seed_invoice) 0 Item_qty "1e999" = SetInvoice next
        /\ items next !! 0%nat = Some item'
        /\ qty item' = PrimFloat.infinity
        /\ qty item'
           <> (if nonzero_finite (parseFloat "1e999")
               then parseFloat "1e999" else 0%float)).
Proof.
  split; [vm_compute; reflexivity |]. split.
  - eexists. split; [vm_compute; reflexivity |].
    split; [reflexivity |]. cbn.
    intros H. apply (f_equal Prim2SF) in H. vm_compute in H. discriminate.
  - eexists. eexists. split; [vm_compute; reflexivity |].
    split; [reflexivity |]. split; [reflexivity |]. cbn.
    intros H. apply (f_equal Prim2SF) in H. vm_compute in H. discriminate.
Qed.

(** C10, amended.  For every input string, [handleNumberChange] (on
    subtotal, tax, total) and [updateItem] (on qty, unit_price, tax_rate,
    line_total, at a valid index) store [parseFloat] of the string unless
    that is NaN or a zero, and 0 then; what they store is never NaN.  An
    infinity is stored as it is. *)
Theorem numeric_edits_store (invoice : InvoiceDetail) (s : string) :
  let stored :=
    if (PrimFloat.is_nan (parseFloat s) || PrimFloat.is_zero (parseFloat s))%bool
    then 0%float else parseFloat s in
  PrimFloat.is_nan stored = false
  /\ (forall field,
        field = Key_subtotal \/ field = Key_tax \/ field = Key_total ->
        exists next,
          handleNumberChange (Some invoice) field s = SetInvoice next
          /\ invoice_number next field = Some stored)
  /\ (forall index field,
        (index < length (items invoice))%nat ->
        is_numeric_key field = true ->
        exists next item',
          updateItem (Some invoice) index field s = SetInvoice next
          /\ items next !! index = Some item'
          /\ item_number item' field = Some stored).
Proof.
  cbv zeta. rewrite <- or_else_zero_cases.
  split; [apply or_else_zero_not_nan |]. split.
  - intros field [-> | [-> | ->]]; destruct invoice; eexists;
      (split; [reflexivity |]); reflexivity.
  - intros index field Hlt Hnum.
    destruct (lookup_lt_is_Some_2 _ _ Hlt) as [item Hitem].
    unfold updateItem. rewrite Hitem, Hnum.
    eexists. eexists. split; [reflexivity |]. cbn.
    split; [now apply list_lookup_insert_eq |].
    now apply spread_item_number_reads.
Qed.

Lemma numeric_edits_store_witness :
  (exists next,
      handleNumberChange (Some seed_invoice) Key_tax "abc" = SetInvoice next
      /\ tax next = 0%float)
  /\ (exists next item',
        updateItem (Some seed_invoice) 0 Item_unit_price "12.5" = SetInvoice next
        /\ items next !! 0%nat = Some item'
        /\ unit_price item' = 12.5%float).
Proof.
  split.
  - destruct (proj1 (proj2 (numeric_edits_store seed_invoice "abc")) Key_tax)
      as (next & Hrun & Hval); [right; left; reflexivity |].
    exists next. split; [exact Hrun |].
    cbn in Hval. injection Hval as ->. vm_compute. reflexivity.
  - destruct (proj2 (proj2 (numeric_edits_store seed_invoice "12.5"))
                0%nat Item_unit_price)
      as (next & item' & Hrun & Hat & Hval); [cbn; lia | reflexivity |].
    exists next, item'. split; [exact Hrun |]. split; [exact Hat |].
    cbn in Hval. injection Hval as ->. vm_compute. reflexivity.
Defined.

End InvoiceReviewFacts.

Module HomeFacts.
Import JS Async Home.

(** A file within the limit is posted to [/extract]: the two guards are
    all that keep [onUpload] from the network. *)
Lemma onUpload_posts toFixed (s : state) (f : File) W (srv : server W request) (w : W) :
  file s = Some f ->
  (size f <= 5 * 1024 * 1024)%N ->
  exists rest,
    sent (run apply srv (onUpload toFixed s) s w) = existT _ (POST_extract f) :: rest.
Proof.
  intros Hfile Hsize. unfold onUpload. rewrite Hfile.
  destruct (N.ltb_spec (5 * 1024 * 1024) (size f)) as [Hgt | _]; [lia |].
  cbn. destruct (srv w ExtractBody (POST_extract f)) as [r w'].
  eexists. reflexivity.
Qed.

(** C9. [onUpload] with a file of more than 5 * 1024 * 1024 bytes sets
    the message "File size must be less than 5MB" (an error), sends no
    request and leaves the list of invoices as it was; with no file it
    does the same with "Please select a file". *)
Theorem onUpload_guards (toFixed : number -> nat -> string) (s : state) :
  (file s = None ->
     onUpload toFixed s
     = Call (setMsg "Please select a file") (Call (setMsgType error) (Return tt))
     /\ forall W (srv : server W request) (w : W),
          run apply srv (onUpload toFixed s) s w
          = {| result := tt;
               final := {| file := file s; busy := busy s; invoices := invoices s;
                           msg := "Please select a file"; msgType := error |};
               world := w; sent := [] |})
  /\ (forall f,
        file s = Some f ->
        (5 * 1024 * 1024 < size f)%N ->
        onUpload toFixed s
        = Call (setMsg "File size must be less than 5MB")
            (Call (setMsgType error) (Return tt))
        /\ forall W (srv : server W request) (w : W),
             run apply srv (onUpload toFixed s) s w
             = {| result := tt;
                  final := {| file := file s; busy := busy s;
                              invoices := invoices s;
                              msg := "File size must be less than 5MB";
                              msgType := error |};
                  world := w; sent := [] |}).
Proof.
  split.
  - intros Hfile. unfold onUpload. rewrite Hfile.
    split; [reflexivity | intros W srv w; cbn; now rewrite Hfile].
  - intros f Hfile Hsize. unfold onUpload. rewrite Hfile.
    apply N.ltb_lt in Hsize. rewrite Hsize.
    split; [reflexivity | intros W srv w; cbn; now rewrite Hfile].
Qed.

Lemma onUpload_guards_witness :
  msg (final (run apply offline (onUpload (fun _ _ => "") idle) idle tt))
  = "Please select a file"
  /\ sent (run apply offline (onUpload (fun _ _ => "") (picked big_scan))
             (picked big_scan) tt)
     = []
  /\ msg (final (run apply offline (onUpload (fun _ _ => "") (picked big_scan))
                   (picked big_scan) tt))
     = "File size must be less than 5MB".
Proof.
  pose proof (proj1 (onUpload_guards (fun _ _ => "") idle) eq_refl) as [_ Hnone].
  pose proof (proj2 (onUpload_guards (fun _ _ => "") (picked big_scan))
                big_scan eq_refl eq_refl) as [_ Hbig].
  rewrite (Hnone unit offline tt), (Hbig unit offline tt).
  repeat split.
Defined.

End HomeFacts.

Module SchemaFacts.
Import Schema.

Example seed_satisfies : satisfies schema_sql (seed "2025-10-01 00:00:00") = true.
Proof. vm_compute. reflexivity. Qed.

Lemma rows_insert_eq db t rs : rows (<[t := rs]> db) t = rs.
Proof. unfold rows. now rewrite lookup_insert_eq. Qed.

Lemma rows_insert_ne db t t' rs : t <> t' -> rows (<[t := rs]> db) t' = rows db t'.
Proof. intros H. unfold rows. now rewrite lookup_insert_ne. Qed.

(** What [DELETE FROM invoices WHERE victim] comes to under
    [schema_sql]: the one key that references [invoices] cascades. *)
Lemma delete_from_invoices victim db :
  DELETE_FROM schema_sql "invoices" victim db
  = Some
      (<["invoices" := List.filter (fun r => negb (victim r)) (rows db "invoices")]>
         (<["invoice_items" :=
              List.filter
                (fun r => negb (refers {| fk_column := "invoice_id";
                                          fk_table := "invoices";
                                          fk_references := "id";
                                          ON_DELETE := CASCADE |}
                                       (List.filter victim (rows db "invoices")) r))
                (rows db "invoice_items")]> db)).
Proof.
  unfold DELETE_FROM. cbn.
  rewrite rows_insert_ne by discriminate. reflexivity.
Qed.

Lemma forallb_filter {A : Type} (f g : A -> bool) (l : list A) :
  forallb f l = true -> forallb f (List.filter g l) = true.
Proof.
  rewrite !forallb_forall. intros H x Hx.
  apply filter_In in Hx as [Hx _]. now apply H.
Qed.

Lemma NoDup_map_filter {A B : Type} (f : A -> B) (g : A -> bool) (l : list A) :
  NoDup (map f l) -> NoDup (map f (List.filter g l)).
Proof.
  induction l as [| x l IH]; cbn; [trivial |].
  intros Hnd. apply NoDup_cons in Hnd as [Hx Hnd].
  destruct (g x); cbn; [| now apply IH].
  apply NoDup_cons. split; [| now apply IH].
  intros Hin. apply Hx.
  apply list_elem_of_In, in_map_iff in Hin as (y & Hy & Hin).
  apply filter_In in Hin as [Hin _].
  apply list_elem_of_In, in_map_iff. now exists y.
Qed.

Lemma NoDup_map_lookup_inj {A B : Type} (f : A -> B) (l : list A) i j x y :
  NoDup (map f l) -> l !! i = Some x -> l !! j = Some y -> f x = f y -> i = j.
Proof.
  revert i j. induction l as [| z l IH]; intros i j Hnd Hi Hj Hf; [easy |].
  cbn in Hnd. apply NoDup_cons in Hnd as [Hz Hnd].
  destruct i as [| i], j as [| j]; cbn in Hi, Hj.
  - reflexivity.
  - exfalso. apply Hz. injection Hi as ->. rewrite Hf.
    apply list_elem_of_In, in_map. apply list_elem_of_In.
    now apply list_elem_of_lookup_2 with j.
  - exfalso. apply Hz. injection Hj as ->. rewrite <- Hf.
    apply list_elem_of_In, in_map. apply list_elem_of_In.
    now apply list_elem_of_lookup_2 with i.
  - f_equal. now apply IH.
Qed.

Lemma columns_hold_filter tb g rs :
  columns_hold tb rs = true -> columns_hold tb (List.filter g rs) = true.
Proof.
  unfold columns_hold. rewrite !forallb_forall. intros H col Hcol.
  specialize (H col Hcol). apply andb_true_iff in H as [Hcells Hkey].
  apply andb_true_iff. split; [now apply forallb_filter |].
  unfold key_unique in *. destruct (PRIMARY_KEY col); cbn in *; [| reflexivity].
  apply bool_decide_eq_true. apply bool_decide_eq_true in Hkey.
  now apply NoDup_map_filter.
Qed.

(** A row that refers to some of [parents] refers to those of them that
    a filter keeps, or to one it drops. *)
Lemma refers_split fk (keep : gmap string value -> bool) parents child :
  refers fk parents child = true ->
  refers fk (List.filter keep parents) child = true
  \/ refers fk (List.filter (fun r => negb (keep r)) parents) child = true.
Proof.
  unfold refers. rewrite !andb_true_iff, !existsb_exists.
  intros [Hnull (p & Hp & Heq)].
  destruct (keep p) eqn:Hkeep; [left | right];
    (split; [exact Hnull |]); exists p;
    (split; [apply filter_In; split; [exact Hp |] | exact Heq]).
  - exact Hkeep.
  - now rewrite Hkeep.
Qed.

Lemma filter_negb_negb {A : Type} (f : A -> bool) (l : list A) :
  List.filter (fun r => negb (negb (f r))) l = List.filter f l.
Proof. apply filter_ext. intros r. apply negb_involutive. Qed.

(** The constraints of [schema_sql], one by one. *)
Lemma satisfies_schema_sql db :
  satisfies schema_sql db = true <->
  columns_hold vendors (rows db "vendors") = true
  /\ columns_hold invoices (rows db "invoices") = true
  /\ columns_hold invoice_items (rows db "invoice_items") = true
  /\ forallb (key_resolves db {| fk_column := "invoice_id"; fk_table := "invoices";
                                 fk_references := "id"; ON_DELETE := CASCADE |})
             (rows db "invoice_items") = true.
Proof.
  unfold satisfies, table_satisfied, keys_resolve. cbn.
  rewrite !andb_true_r, !andb_true_iff. tauto.
Qed.

(** [DELETE FROM invoices] keeps a database within its constraints. *)
Lemma delete_from_invoices_satisfies victim db :
  satisfies schema_sql db = true ->
  exists db',
    DELETE_FROM schema_sql "invoices" victim db = Some db'
    /\ satisfies schema_sql db' = true.
Proof.
  intros Hsat. rewrite delete_from_invoices. eexists. split; [reflexivity |].
  apply satisfies_schema_sql in Hsat as (Hv & Hi & Hit & Hfk).
  apply satisfies_schema_sql.
  rewrite rows_insert_eq.
  rewrite !(rows_insert_ne _ "invoices") by discriminate.
  rewrite rows_insert_eq, rows_insert_ne by discriminate.
  split; [exact Hv |]. split; [now apply columns_hold_filter |].
  split; [now apply columns_hold_filter |].
  apply forallb_forall. intros r Hr.
  apply filter_In in Hr as [Hr Hkept]. apply negb_true_iff in Hkept.
  rewrite forallb_forall in Hfk. specialize (Hfk r Hr).
  unfold key_resolves in *. cbn [fk_table fk_column] in *.
  rewrite rows_insert_eq.
  apply orb_true_iff in Hfk as [Hnull | Hrefers];
    [now rewrite Hnull |].
  apply orb_true_iff. right.
  apply (refers_split _ (fun r => negb (victim r))) in Hrefers as [Hlive | Hdead];
    [exact Hlive |].
  rewrite filter_negb_negb in Hdead. congruence.
Qed.

(** C6. [invoice_id] is a NOT NULL key into [invoices(id)] that
    cascades on delete.  In a database within the constraints of the
    schema, every row of [invoice_items] has an [invoice_id] and exactly
    one row of [invoices] carries it; deleting the invoice with id [k]
    succeeds, leaves no row of [invoice_items] with [invoice_id = k] and
    touches no other item, and the database stays within the
    constraints. *)
Theorem invoice_items_cascade (db : gmap string (list (gmap string value))) (k : Z) :
  satisfies schema_sql db = true ->
  find_column schema_sql "invoice_items" "invoice_id"
  = Some {| col_name := "invoice_id"; col_type := INT; NOT_NULL := true;
            AUTO_INCREMENT := false; PRIMARY_KEY := false; DEFAULT := None |}
  /\ referencing schema_sql "invoices"
     = [("invoice_items",
         {| fk_column := "invoice_id"; fk_table := "invoices";
            fk_references := "id"; ON_DELETE := CASCADE |})]
  /\ (forall item,
        In item (rows db "invoice_items") ->
        cell item "invoice_id" <> NULL
        /\ exists i invoice,
             rows db "invoices" !! i = Some invoice
             /\ cell invoice "id" = cell item "invoice_id"
             /\ forall j other,
                  rows db "invoices" !! j = Some other ->
                  cell other "id" = cell item "invoice_id" -> j = i)
  /\ exists db',
       delete_invoice k db = Some db'
       /\ (forall item,
             In item (rows db' "invoice_items") ->
             cell item "invoice_id" <> Int k)
       /\ rows db' "invoice_items"
          = List.filter
              (fun item => negb (bool_decide (cell item "invoice_id" = Int k)))
              (rows db "invoice_items")
       /\ rows db' "invoices"
          = List.filter (fun r => negb (id_is k r)) (rows db "invoices")
       /\ rows db' "vendors" = rows db "vendors"
       /\ satisfies schema_sql db' = true.
Proof.
  intros Hsat. split; [reflexivity |]. split; [reflexivity |].
  pose proof Hsat as Hsat'.
  apply satisfies_schema_sql in Hsat' as (_ & Hi & Hit & Hfk).
  rewrite forallb_forall in Hfk.
  assert (Hnotnull : forall item,
             In item (rows db "invoice_items") ->
             is_null (cell item "invoice_id") = false).
  { intros item Hitem. unfold columns_hold in Hit.
    rewrite forallb_forall in Hit.
    specialize (Hit {| col_name := "invoice_id"; col_type := INT; NOT_NULL := true;
                       AUTO_INCREMENT := false; PRIMARY_KEY := false;
                       DEFAULT := None |}).
    assert (Hcells : In {| col_name := "invoice_id"; col_type := INT;
                           NOT_NULL := true; AUTO_INCREMENT := false;
                           PRIMARY_KEY := false; DEFAULT := None |}
                        (columns invoice_items)) by (cbn; tauto).
    apply Hit, andb_true_iff in Hcells as [Hcells _].
    rewrite forallb_forall in Hcells. specialize (Hcells item Hitem).
    unfold column_holds in Hcells. cbn in Hcells.
    apply andb_true_iff in Hcells as [_ Hcells]. now apply negb_true_iff. }
  assert (Hparent : forall item,
             In item (rows db "invoice_items") ->
             exists invoice,
               In invoice (rows db "invoices")
               /\ cell invoice "id" = cell item "invoice_id").
  { intros item Hitem. specialize (Hfk item Hitem).
    unfold key_resolves, refers in Hfk. cbn [fk_column fk_table fk_references] in Hfk.
    rewrite (Hnotnull item Hitem) in Hfk. cbn in Hfk.
    apply existsb_exists in Hfk as (p & Hp & Heq).
    exists p. split; [exact Hp |]. now apply bool_decide_eq_true in Heq. }
  assert (Hunique : NoDup (map (fun r => cell r "id") (rows db "invoices"))).
  { unfold columns_hold in Hi. rewrite forallb_forall in Hi.
    assert (Hkey : In id_column (columns invoices)) by (cbn; tauto).
    apply Hi, andb_true_iff in Hkey as [_ Hkey].
    now apply bool_decide_eq_true in Hkey. }
  split.
  { intros item Hitem. split.
    - intros Hnull. specialize (Hnotnull item Hitem). now rewrite Hnull in Hnotnull.
    - destruct (Hparent item Hitem) as (invoice & Hin & Heq).
      apply list_elem_of_In, list_elem_of_lookup in Hin as [i Hi'].
      exists i, invoice. split; [exact Hi' |]. split; [exact Heq |].
      intros j other Hj Hother.
      apply (NoDup_map_lookup_inj (fun r => cell r "id") _ _ _ _ _ Hunique Hj Hi').
      congruence. }
  unfold delete_invoice. rewrite delete_from_invoices.
  eexists. split; [reflexivity |].
  rewrite rows_insert_eq.
  rewrite !(rows_insert_ne _ "invoices") by discriminate.
  rewrite rows_insert_eq, rows_insert_ne by discriminate.
  assert (Hsame : forall item,
             In item (rows db "invoice_items") ->
             refers {| fk_column := "invoice_id"; fk_table := "invoices";
                       fk_references := "id"; ON_DELETE := CASCADE |}
                    (List.filter (id_is k) (rows db "invoices")) item
             = bool_decide (cell item "invoice_id" = Int k)).
  { intros item Hitem. unfold refers. cbn [fk_column fk_references].
    rewrite (Hnotnull item Hitem). cbn.
    destruct (Hparent item Hitem) as (invoice & Hin & Heq).
    destruct (bool_decide (cell item "invoice_id" = Int k)) eqn:Hk.
    - apply bool_decide_eq_true in Hk.
      apply existsb_exists. exists invoice. split.
      + apply filter_In. split; [exact Hin |].
        unfold id_is. apply bool_decide_eq_true. congruence.
      + apply bool_decide_eq_true. exact Heq.
    - apply bool_decide_eq_false in Hk.
      apply not_true_is_false. intros Hex.
      apply existsb_exists in Hex as (p & Hp & Hpeq).
      apply filter_In in Hp as [_ Hp]. unfold id_is in Hp.
      apply bool_decide_eq_true in Hp, Hpeq. congruence. }
  assert (Hitems :
            List.filter
              (fun r => negb (refers {| fk_column := "invoice_id";
                                        fk_table := "invoices";
                                        fk_references := "id";
                                        ON_DELETE := CASCADE |}
                                     (List.filter (id_is k) (rows db "invoices")) r))
              (rows db "invoice_items")
            = List.filter
                (fun item => negb (bool_decide (cell item "invoice_id" = Int k)))
                (rows db "invoice_items")).
  { apply filter_ext_in. intros r Hr. now rewrite Hsame. }
  split.
  { intros item Hitem. rewrite Hitems in Hitem.
    apply filter_In in Hitem as [_ Hk].
    apply negb_true_iff, bool_decide_eq_false in Hk. exact Hk. }
  split; [exact Hitems |]. split; [reflexivity |]. split; [reflexivity |].
  destruct (delete_from_invoices_satisfies (id_is k) db Hsat) as (db' & Hrun & Hsat').
  rewrite delete_from_invoices in Hrun. injection Hrun as <-. exact Hsat'.
Qed.

Lemma invoice_items_cascade_witness :
  exists db',
    delete_invoice 1 (seed "2025-10-01 00:00:00") = Some db'
    /\ rows db' "invoice_items" = []
    /\ satisfies schema_sql db' = true.
Proof.
  destruct (invoice_items_cascade (seed "2025-10-01 00:00:00") 1)
    as (_ & _ & _ & db' & Hrun & _ & Hitems & _ & _ & Hsat);
    [vm_compute; reflexivity |].
  exists db'. split; [exact Hrun |]. split; [| exact Hsat].
  rewrite Hitems. vm_compute. reflexivity.
Defined.

(** C5. A status is PENDING or APPROVED.  The status type of the invoice
    page has these two values, [statusOptions] lists them in this order,
    and they read "PENDING" and "APPROVED"; the [status] column of
    [invoices] is an ENUM of the same two labels whose default is
    'PENDING', so the texts it admits are the texts of the two values. *)
Theorem status_values :
  (forall s : InvoiceReview.Status,
      s = InvoiceReview.PENDING \/ s = InvoiceReview.APPROVED)
  /\ InvoiceReview.statusOptions
     = [InvoiceReview.PENDING; InvoiceReview.APPROVED]
  /\ map InvoiceReview.status_text InvoiceReview.statusOptions
     = ["PENDING"; "APPROVED"]
  /\ find_column schema_sql "invoices" "status"
     = Some {| col_name := "status";
               col_type := ENUM (map InvoiceReview.status_text
                                     InvoiceReview.statusOptions);
               NOT_NULL := false; AUTO_INCREMENT := false; PRIMARY_KEY := false;
               DEFAULT := Some (DEFAULT_text
                                  (InvoiceReview.status_text InvoiceReview.PENDING)) |}
  /\ (forall text,
        admits (ENUM ["PENDING"; "APPROVED"]) (Text text) = true
        <-> exists s : InvoiceReview.Status, text = InvoiceReview.status_text s)
  /\ (forall text s,
        InvoiceReview.status_of_text text = Some s
        <-> text = InvoiceReview.status_text s).
Proof.
  split; [intros []; auto |].
  split; [reflexivity |]. split; [reflexivity |]. split; [reflexivity |].
  split.
  - intros text. cbn. rewrite bool_decide_eq_true. split.
    + intros Hin. apply list_elem_of_In in Hin. cbn in Hin.
      destruct Hin as [<- | [<- | []]];
        [now exists InvoiceReview.PENDING | now exists InvoiceReview.APPROVED].
    + intros [[] ->]; apply list_elem_of_In; cbn; auto.
  - intros text s. unfold InvoiceReview.status_of_text. split.
    + destruct (String.eqb_spec text "PENDING") as [-> | _];
        [now intros [= <-] |].
      destruct (String.eqb_spec text "APPROVED") as [-> | _];
        [now intros [= <-] | discriminate].
    + intros ->. now destruct s.
Qed.

End SchemaFacts.

(* ================================================================== *)
(** * Further properties of the handlers *)

Module InvoiceReviewMore.
Import JS Async InvoiceReview.

Lemma spread_items_back (invoice : InvoiceDetail) (its : list InvoiceItem) :
  spread_items (spread_items invoice its) (items invoice) = invoice.
Proof. now destruct invoice. Qed.

(** X1. [handleFieldChange] writes the named text field and nothing else; on
    [status] it takes the text of an option of the status select and sets
    that status, and any other text leaves the type of the invoice. *)
Theorem handleFieldChange_frame (invoice : InvoiceDetail) (value : string) :
  handleFieldChange (Some invoice) Key_supplier_name value
  = SetInvoice
      {| id := id invoice; supplier_name := Some value;
         supplier_gstin := supplier_gstin invoice;
         invoice_no := invoice_no invoice; invoice_date := invoice_date invoice;
         subtotal := subtotal invoice; tax := tax invoice; total := total invoice;
         status := status invoice; items := items invoice |}
  /\ handleFieldChange (Some invoice) Key_supplier_gstin value
     = SetInvoice
         {| id := id invoice; supplier_name := supplier_name invoice;
            supplier_gstin := Some value;
            invoice_no := invoice_no invoice; invoice_date := invoice_date invoice;
            subtotal := subtotal invoice; tax := tax invoice; total := total invoice;
            status := status invoice; items := items invoice |}
  /\ handleFieldChange (Some invoice) Key_invoice_no value
     = SetInvoice
         {| id := id invoice; supplier_name := supplier_name invoice;
            supplier_gstin := supplier_gstin invoice;
            invoice_no := value; invoice_date := invoice_date invoice;
            subtotal := subtotal invoice; tax := tax invoice; total := total invoice;
            status := status invoice; items := items invoice |}
  /\ handleFieldChange (Some invoice) Key_invoice_date value
     = SetInvoice
         {| id := id invoice; supplier_name := supplier_name invoice;
            supplier_gstin := supplier_gstin invoice;
            invoice_no := invoice_no invoice; invoice_date := Some value;
            subtotal := subtotal invoice; tax := tax invoice; total := total invoice;
            status := status invoice; items := items invoice |}
  /\ (forall option,
        In option statusOptions ->
        handleFieldChange (Some invoice) Key_status (status_text option)
        = SetInvoice
            {| id := id invoice; supplier_name := supplier_name invoice;
               supplier_gstin := supplier_gstin invoice;
               invoice_no := invoice_no invoice;
               invoice_date := invoice_date invoice;
               subtotal := subtotal invoice; tax := tax invoice;
               total := total invoice;
               status := option; items := items invoice |})
  /\ ((forall option, In option statusOptions -> value <> status_text option) ->
      handleFieldChange (Some invoice) Key_status value = Untyped).
Proof.
  destruct invoice. repeat split.
  - intros option _. now destruct option.
  - intros Hno. cbn. unfold status_of_text.
    destruct (String.eqb_spec value "PENDING") as [-> | _].
    { now destruct (Hno PENDING (or_introl eq_refl)). }
    destruct (String.eqb_spec value "APPROVED") as [-> | _]; [| reflexivity].
    now destruct (Hno APPROVED (or_intror (or_introl eq_refl))).
Qed.

Lemma handleFieldChange_frame_witness :
  handleFieldChange (Some seed_invoice) Key_status "PENDING"
  = SetInvoice
      {| id := id seed_invoice; supplier_name := supplier_name seed_invoice;
         supplier_gstin := supplier_gstin seed_invoice;
         invoice_no := invoice_no seed_invoice;
         invoice_date := invoice_date seed_invoice;
         subtotal := subtotal seed_invoice; tax := tax seed_invoice;
         total := total seed_invoice;
         status := PENDING; items := items seed_invoice |}
  /\ handleFieldChange (Some seed_invoice) Key_status "pending" = Untyped.
Proof.
  split.
  - apply (proj1 (proj2 (proj2 (proj2 (proj2
             (handleFieldChange_frame seed_invoice "")))))
             PENDING).
    left. reflexivity.
  - apply (proj2 (proj2 (proj2 (proj2 (proj2
             (handleFieldChange_frame seed_invoice "pending")))))).
    intros option [<- | [<- | []]]; discriminate.
Defined.

(** [recalcTotals] reads the items and copies the fields that are no
    totals: what it sets does not depend on the subtotal, tax and total
    the invoice holds. *)
Lemma recalcTotals_reads_items (a b : InvoiceDetail) :
  items a = items b -> id a = id b ->
  supplier_name a = supplier_name b -> supplier_gstin a = supplier_gstin b ->
  invoice_no a = invoice_no b -> invoice_date a = invoice_date b ->
  status a = status b ->
  recalcTotals (Some a) = recalcTotals (Some b).
Proof.
  destruct a, b; cbn. intros. subst. reflexivity.
Qed.

(** X2. Recalculating twice is recalculating once, and a recalculation wipes
    out a hand edit of subtotal, tax or total. *)
Theorem recalcTotals_overrides (invoice edited : InvoiceDetail)
    (field : InvoiceDetail_key) (value : string) :
  field = Key_subtotal \/ field = Key_tax \/ field = Key_total ->
  handleNumberChange (Some invoice) field value = SetInvoice edited ->
  recalcTotals (Some edited) = recalcTotals (Some invoice)
  /\ forall next,
       recalcTotals (Some invoice) = SetInvoice next ->
       recalcTotals (Some next) = SetInvoice next.
Proof.
  intros Hfield Hedit. split.
  - destruct invoice. destruct Hfield as [-> | [-> | ->]];
      cbn in Hedit; injection Hedit as <-; reflexivity.
  - intros next Hnext. rewrite <- Hnext.
    cbn in Hnext. injection Hnext as <-.
    now apply recalcTotals_reads_items.
Qed.

Lemma recalcTotals_overrides_witness :
  recalcTotals
    (Some {| id := id seed_invoice; supplier_name := supplier_name seed_invoice;
             supplier_gstin := supplier_gstin seed_invoice;
             invoice_no := invoice_no seed_invoice;
             invoice_date := invoice_date seed_invoice;
             subtotal := subtotal seed_invoice; tax := tax seed_invoice;
             total := or_else (parseFloat "1") 0%float;
             status := status seed_invoice; items := items seed_invoice |})
  = recalcTotals (Some seed_invoice).
Proof.
  apply (recalcTotals_overrides seed_invoice _ Key_total "1").
  - right. right. reflexivity.
  - reflexivity.
Defined.

Lemma reduce_insert_same_step {A B : Type} (f : B -> A -> B) (l : list A)
    (i : nat) (x x' : A) (init : B) :
  l !! i = Some x ->
  (forall acc, f acc x' = f acc x) ->
  reduce f init (<[i := x']> l) = reduce f init l.
Proof.
  unfold reduce. revert i init.
  induction l as [| y l IH]; intros i init Hi Hstep; [discriminate |].
  destruct i as [| i]; cbn in *.
  - injection Hi as ->. now rewrite Hstep.
  - now apply IH.
Qed.

(** X3. [recalcTotals] does not read [line_total], [sku] or [description]:
    after an edit of one of them it computes the subtotal, tax and total
    it computed before. *)
Theorem recalcTotals_ignores_line_total (invoice edited : InvoiceDetail)
    (i : nat) (field : InvoiceItem_key) (value : string) :
  field = Item_line_total \/ field = Item_sku \/ field = Item_description ->
  updateItem (Some invoice) i field value = SetInvoice edited ->
  exists before after,
    recalcTotals (Some invoice) = SetInvoice before
    /\ recalcTotals (Some edited) = SetInvoice after
    /\ subtotal after = subtotal before
    /\ tax after = tax before
    /\ total after = total before.
Proof.
  intros Hfield Hedit. unfold updateItem in Hedit.
  destruct (items invoice !! i) as [item |] eqn:Hi; [| discriminate].
  injection Hedit as <-.
  eexists. eexists. split; [reflexivity |]. split; [reflexivity |].
  cbn [subtotal tax total items spread_items].
  assert (Hsub :
            reduce (fun sum item => sum + qty item * unit_price item)%float 0%float
              (<[i := if is_numeric_key field
                      then spread_item_number item field
                             (or_else (parseFloat value) 0%float)
                      else spread_item_string item field value]> (items invoice))
            = reduce (fun sum item => sum + qty item * unit_price item)%float 0%float
                (items invoice)).
  { apply reduce_insert_same_step with item; [exact Hi |].
    intros acc. destruct item, Hfield as [-> | [-> | ->]]; reflexivity. }
  assert (Htax :
            reduce (fun sum item =>
                      sum + qty item * unit_price item * (tax_rate item / 100))%float
              0%float
              (<[i := if is_numeric_key field
                      then spread_item_number item field
                             (or_else (parseFloat value) 0%float)
                      else spread_item_string item field value]> (items invoice))
            = reduce (fun sum item =>
                        sum + qty item * unit_price item * (tax_rate item / 100))%float
                0%float (items invoice)).
  { apply reduce_insert_same_step with item; [exact Hi |].
    intros acc. destruct item, Hfield as [-> | [-> | ->]]; reflexivity. }
  rewrite Hsub, Htax. repeat split.
Qed.

Lemma recalcTotals_ignores_line_total_witness :
  exists edited after,
    updateItem (Some seed_invoice) 0 Item_line_total "1" = SetInvoice edited
    /\ recalcTotals (Some edited) = SetInvoice after
    /\ total after = 11800%float.
Proof.
  destruct (recalcTotals_ignores_line_total seed_invoice _ 0 Item_line_total "1"
              (or_introl eq_refl) eq_refl)
    as (before & after & Hbefore & Hafter & _ & _ & Htotal).
  eexists. exists after. split; [reflexivity |]. split; [exact Hafter |].
  rewrite Htotal. injection Hbefore as <-. vm_compute. reflexivity.
Defined.

(** What [updateItem] puts at the index: the item with one field
    replaced. *)
Lemma updateItem_at (invoice : InvoiceDetail) (i : nat) (item : InvoiceItem)
    (field : InvoiceItem_key) (value : string) :
  items invoice !! i = Some item ->
  updateItem (Some invoice) i field value
  = SetInvoice
      (spread_items invoice
         (<[i := if is_numeric_key field
                 then spread_item_number item field (or_else (parseFloat value) 0%float)
                 else spread_item_string item field value]> (items invoice))).
Proof. intros Hi. unfold updateItem. now rewrite Hi. Qed.

Lemma spread_items_twice (invoice : InvoiceDetail) (a b : list InvoiceItem) :
  spread_items (spread_items invoice a) b = spread_items invoice b.
Proof. reflexivity. Qed.

(** X4. Two edits of items that touch different fields, or different items,
    can be made in either order; of two edits of the same field of the
    same item the second stands. *)
Theorem updateItem_order (invoice a b : InvoiceDetail) (i j : nat)
    (f g : InvoiceItem_key) (v w : string) :
  updateItem (Some invoice) i f v = SetInvoice a ->
  updateItem (Some invoice) j g w = SetInvoice b ->
  (i <> j \/ f <> g -> updateItem (Some a) j g w = updateItem (Some b) i f v)
  /\ (i = j -> f = g -> updateItem (Some a) j g w = SetInvoice b).
Proof.
  intros Ha Hb.
  unfold updateItem in Ha, Hb.
  destruct (items invoice !! i) as [x |] eqn:Hi; [| discriminate].
  destruct (items invoice !! j) as [y |] eqn:Hj; [| discriminate].
  injection Ha as <-. injection Hb as <-.
  pose proof (lookup_lt_Some _ _ _ Hi) as Hilt.
  pose proof (lookup_lt_Some _ _ _ Hj) as Hjlt.
  split.
  - intros Hdiff. destruct (decide (i = j)) as [<- | Hij].
    + assert (Hfg : f <> g) by (destruct Hdiff; congruence).
      rewrite Hi in Hj. injection Hj as <-.
      erewrite !updateItem_at
        by (cbn; apply list_lookup_insert_eq; exact Hilt).
      cbn. rewrite !list_insert_insert_eq. do 2 f_equal.
      destruct x, f, g; try congruence; reflexivity.
    + erewrite updateItem_at
        by (cbn; rewrite list_lookup_insert_ne by exact Hij; exact Hj).
      erewrite updateItem_at
        by (cbn; rewrite list_lookup_insert_ne by congruence; exact Hi).
      cbn. rewrite !spread_items_twice. f_equal. f_equal.
      apply list_insert_insert_ne. congruence.
  - intros <- <-. rewrite Hi in Hj. injection Hj as <-.
    erewrite updateItem_at by (cbn; apply list_lookup_insert_eq; exact Hilt).
    cbn. rewrite list_insert_insert_eq. do 3 f_equal.
    destruct x, f; reflexivity.
Qed.

Lemma updateItem_order_witness :
  exists a b,
    updateItem (Some seed_invoice) 0 Item_qty "3" = SetInvoice a
    /\ updateItem (Some seed_invoice) 1 Item_sku "PEN" = SetInvoice b
    /\ updateItem (Some a) 1 Item_sku "PEN" = updateItem (Some b) 0 Item_qty "3".
Proof.
  eexists. eexists. split; [reflexivity |]. split; [reflexivity |].
  apply (proj1 (updateItem_order seed_invoice _ _ 0 1 Item_qty Item_sku "3" "PEN"
                  eq_refl eq_refl)).
  left. discriminate.
Defined.

Lemma take_drop_snoc {A : Type} (l : list A) (x : A) :
  (take (length l) (l ++ [x]) ++ drop (S (length l)) (l ++ [x]))%list = l.
Proof.
  rewrite take_app_length.
  rewrite drop_ge by (rewrite length_app; cbn; lia).
  apply app_nil_r.
Qed.

(** X5. Removing the item that [addItem] has just appended gives the invoice
    back, unless the list was empty: then the appended item is the only
    one and [removeItem] leaves it. *)
Theorem addItem_removeItem (invoice added : InvoiceDetail) :
  addItem (Some invoice) = SetInvoice added ->
  (items invoice <> [] ->
   removeItem (Some added) (length (items invoice)) = SetInvoice invoice)
  /\ (items invoice = [] ->
      items added = [blank_item]
      /\ forall index, removeItem (Some added) index = Unchanged).
Proof.
  intros Hadd. cbn in Hadd. injection Hadd as <-. split.
  - intros Hne. unfold removeItem. cbn [items spread_items].
    rewrite length_app. cbn [length].
    destruct (Nat.eqb_spec (length (items invoice) + 1) 1) as [H1 | _].
    { destruct (items invoice); [congruence | cbn in H1; lia]. }
    f_equal. rewrite InvoiceReviewFacts.js_filter_removes, take_drop_snoc.
    now destruct invoice.
  - intros Hnil. rewrite Hnil. split; [reflexivity |].
    intros index. reflexivity.
Qed.

Lemma addItem_removeItem_witness :
  exists added,
    addItem (Some seed_invoice) = SetInvoice added
    /\ removeItem (Some added) 2 = SetInvoice seed_invoice.
Proof.
  eexists. split; [reflexivity |].
  apply (proj1 (addItem_removeItem seed_invoice _ eq_refl)).
  discriminate.
Defined.

(** X6. A numeric edit stores no negative zero: "-0" is stored as 0. *)
Theorem numeric_edits_store_no_negative_zero (s : string) :
  or_else (parseFloat s) 0%float <> PrimFloat.neg_zero
  /\ (forall invoice field next,
        handleNumberChange (Some invoice) field s = SetInvoice next ->
        invoice_number next field <> Some PrimFloat.neg_zero)
  /\ (forall invoice index field next item',
        is_numeric_key field = true ->
        updateItem (Some invoice) index field s = SetInvoice next ->
        items next !! index = Some item' ->
        item_number item' field <> Some PrimFloat.neg_zero).
Proof.
  assert (Hstored : or_else (parseFloat s) 0%float <> PrimFloat.neg_zero).
  { unfold or_else, truthy. intros H.
    destruct (PrimFloat.is_nan (parseFloat s)); cbn [orb negb] in H.
    - apply (f_equal Prim2SF) in H. vm_compute in H. discriminate.
    - destruct (PrimFloat.is_zero (parseFloat s)) eqn:Hz; cbn [negb] in H.
      + apply (f_equal Prim2SF) in H. vm_compute in H. discriminate.
      + rewrite H in Hz. vm_compute in Hz. discriminate. }
  split; [exact Hstored |]. split.
  - intros invoice field next Hrun Hzero.
    unfold handleNumberChange in Hrun.
    set (v := or_else (parseFloat s) 0%float) in *. clearbody v.
    destruct invoice, field; cbn in Hrun; try discriminate;
      injection Hrun as <-; cbn in Hzero; injection Hzero as Hzero;
      exact (Hstored Hzero).
  - intros invoice index field next item' Hnum Hrun Hat Hzero.
    unfold updateItem in Hrun.
    destruct (items invoice !! index) as [item |] eqn:Hi; [| discriminate].
    rewrite Hnum in Hrun. injection Hrun as <-.
    cbn [items spread_items] in Hat.
    rewrite list_lookup_insert_eq in Hat by now apply lookup_lt_Some with item.
    injection Hat as <-.
    destruct (InvoiceReviewFacts.spread_item_number_reads item field
                (or_else (parseFloat s) 0%float) Hnum) as (Hset & _).
    rewrite Hset in Hzero. injection Hzero as Hzero. exact (Hstored Hzero).
Qed.

Lemma numeric_edits_store_no_negative_zero_witness :
  exists next,
    handleNumberChange (Some seed_invoice) Key_tax "-0" = SetInvoice next
    /\ tax next <> PrimFloat.neg_zero.
Proof.
  eexists. split; [reflexivity |].
  intros Hzero.
  apply (proj1 (proj2 (numeric_edits_store_no_negative_zero "-0"))
           seed_invoice Key_tax _ eq_refl).
  exact (f_equal Some Hzero).
Defined.

End InvoiceReviewMore.

Module InvoiceReviewAsync.
Import JS Async InvoiceReview InvoiceReviewView.

Lemma str_or_else_nonempty (a b : string) : b <> "" -> str_or_else a b <> "".
Proof. intros Hb. destruct a; [exact Hb | discriminate]. Qed.


(** X8. While no invoice is loaded, the handlers of the form and the Save
    button do nothing: no setter is called and no request is sent. *)
Theorem no_invoice_no_effect (toISOString : string -> settled string)
    (op : operation) (s : state) (W : Type) (srv : server W request) (w : W) :
  invoice s = None ->
  (forall invoiceId, op <> FetchInvoice invoiceId) ->
  run apply srv (perform toISOString op s) s w
  = {| result := Unchanged; final := s; world := w; sent := [] |}.
Proof.
  intros Hnone Hop.
  destruct op; cbn; unfold saveInvoice; rewrite ?Hnone; try reflexivity.
  now destruct (Hop invoiceId).
Qed.

Lemma no_invoice_no_effect_witness :
  run apply (fun w _ q => (NetworkError "Failed to fetch", w))
      (perform (fun _ => Rejected "Invalid time value") SaveInvoice initial)
      initial tt
  = {| result := Unchanged; final := initial; world := tt; sent := [] |}.
Proof.
  apply (no_invoice_no_effect _ SaveInvoice initial unit); [reflexivity |].
  discriminate.
Defined.

(** X9. [saveInvoice] on a loaded invoice always ends with [saving] off, and
    with a success message or an error message, never both: the success
    comes with the invoice the server answered and after one PUT; the
    error is not empty and leaves the invoice of the page as it was. *)
Theorem saveInvoice_outcomes (toISOString : string -> settled string)
    (s : state) (inv : InvoiceDetail) (W : Type) (srv : server W request) (w : W) :
  invoice s = Some inv ->
  let r := run apply srv (saveInvoice toISOString s) s w in
  saving (final r) = false
  /\ loading (final r) = loading s
  /\ ((success (final r) = Some "Invoice updated successfully"
       /\ error (final r) = None
       /\ exists data payload,
            invoice (final r) = Some data
            /\ sent r = [existT _ (PUT_invoice (id inv) payload)]
            /\ (srv w _ (PUT_invoice (id inv) payload)).1 = Ok (Fulfilled data))
      \/ (success (final r) = None
          /\ (exists m, error (final r) = Some m /\ m <> "")
          /\ invoice (final r) = Some inv
          /\ (length (sent r) <= 1)%nat)).
Proof.
  intros Hinv. cbv zeta. unfold saveInvoice. rewrite Hinv. cbn [run apply].
  assert (Hfailed : forall m (w' : W) (log : list {R : Type & request R}),
             (length log <= 1)%nat ->
             invoice s = Some inv ->
             let r := {| result := tt;
                         final := final (run apply srv (save_failed m)
                                           (apply (setSuccess None)
                                              (apply (setError None)
                                                 (apply (setSaving true) s))) w');
                         world := w'; sent := log |} in
             saving (final r) = false
             /\ loading (final r) = loading s
             /\ ((success (final r) = Some "Invoice updated successfully"
                  /\ error (final r) = None
                  /\ exists data payload,
                       invoice (final r) = Some data
                       /\ sent r = [existT _ (PUT_invoice (id inv) payload)]
                       /\ (srv w _ (PUT_invoice (id inv) payload)).1
                          = Ok (Fulfilled data))
                 \/ (success (final r) = None
                     /\ (exists m, error (final r) = Some m /\ m <> "")
                     /\ invoice (final r) = Some inv
                     /\ (length (sent r) <= 1)%nat))).
  { intros m w' log Hlog Hs. cbn.
    split; [reflexivity |]. split; [reflexivity |]. right.
    split; [reflexivity |]. split.
    - eexists. split; [reflexivity |]. now apply str_or_else_nonempty.
    - split; [exact Hs | exact Hlog]. }
  destruct (payload_date toISOString (invoice_date inv)) as [m | date].
  - apply (Hfailed m w []); [cbn; lia | exact Hinv].
  - cbn [run].
    match goal with
    | |- context [srv w InvoiceDetail ?q] =>
        destruct (srv w InvoiceDetail q) as [res w'] eqn:Hsrv
    end.
    destruct res as [m | [m | err] | [m | data]].
    + apply (Hfailed m w' [_]); [cbn; lia | exact Hinv].
    + apply (Hfailed m w' [_]); [cbn; lia | exact Hinv].
    + apply (Hfailed _ w' [_]); [cbn; lia | exact Hinv].
    + apply (Hfailed m w' [_]); [cbn; lia | exact Hinv].
    + cbn. split; [reflexivity |]. split; [reflexivity |]. left.
      split; [reflexivity |]. split; [reflexivity |].
      eexists. eexists. split; [reflexivity |]. split; [reflexivity |].
      now rewrite Hsrv.
Qed.

Lemma saveInvoice_outcomes_witness :
  saving (final (run apply (fun w _ q => (NetworkError "Failed to fetch", w))
                   (saveInvoice (fun _ => Fulfilled "2025-10-01T00:00:00.000Z")
                      (InvoiceReview.apply (setInvoice seed_invoice) initial))
                   (InvoiceReview.apply (setInvoice seed_invoice) initial) tt))
  = false.
Proof.
  apply (saveInvoice_outcomes _ _ seed_invoice unit). reflexivity.
Defined.




(** X11. The first load.  Without an id in the address nothing is fetched and
    the page stays on "Loading invoice": the effect returns before the
    block whose [finally] switches [loading] off.  With an id one GET is
    sent and the page leaves the loading screen, for the form when the
    invoice arrived and for the message of the failure otherwise. *)
Theorem fetchInvoice_screen (invoiceId : option string) (W : Type)
    (srv : server W request) (w : W) :
  let r := run apply srv (fetchInvoice invoiceId) initial w in
  (invoiceId = None \/ invoiceId = Some "" ->
   sent r = [] /\ render (final r) = Loading_invoice)
  /\ (forall text,
        invoiceId = Some text -> text <> "" ->
        sent r = [existT _ (GET_invoice text)]
        /\ render (final r)
           = match (srv w _ (GET_invoice text)).1 with
             | Ok (Fulfilled data) => Review_form data
             | NotOk _ => Not_found "Invoice not found"
             | Ok (Rejected m) | NetworkError m =>
                 Not_found (str_or_else m "Failed to load invoice")
             end).
Proof.
  cbv zeta. split.
  - intros [-> | ->]; split; reflexivity.
  - intros text -> Hne. destruct text as [| c text]; [congruence |].
    cbn [fetchInvoice run].
    destruct (srv w InvoiceDetail (GET_invoice (String c text))) as [res w'].
    destruct res as [m | j | [m | data]]; cbn; split; try reflexivity.
    + destruct m; reflexivity.
    + destruct m; reflexivity.
Qed.

Lemma fetchInvoice_screen_witness :
  render (final (run apply (fun w _ q => (NetworkError "", w))
                   (fetchInvoice (Some "7")) initial tt))
  = Not_found "Failed to load invoice"
  /\ render (final (run apply (fun w _ q => (NetworkError "", w))
                      (fetchInvoice None) initial tt))
     = Loading_invoice.
Proof.
  split.
  - apply (proj2 (proj2 (fetchInvoice_screen (Some "7") unit
                           (fun w _ q => (NetworkError "", w)) tt)
                    "7" eq_refl ltac:(discriminate))).
  - apply (proj2 (proj1 (fetchInvoice_screen None unit
                           (fun w _ q => (NetworkError "", w)) tt)
                    (or_introl eq_refl))).
Defined.

End InvoiceReviewAsync.

Module HomeMore.
Import JS Async Home.

Lemma upload_failed_nonempty (m : string) :
  str_or_else m "An error occurred" <> "".
Proof. destruct m; discriminate. Qed.

(** X12. Past its two guards [onUpload] posts the file and always ends with
    [busy] off.  When the upload fails it is the only request, the file
    stays picked, the list stays, and an error message that is not empty
    is shown.  When it succeeds the file is cleared and the list is
    fetched again: a list that arrives replaces the old one under the
    success message, and a list that does not arrive leaves the old one
    under "Failed to load invoices", an error, in place of the success
    message. *)
Theorem onUpload_past_guards (toFixed : number -> nat -> string) (s : state)
    (f : File) (W : Type) (srv : server W request) (w : W) :
  file s = Some f ->
  (size f <= 5 * 1024 * 1024)%N ->
  let r := run apply srv (onUpload toFixed s) s w in
  busy (final r) = false
  /\ match (srv w _ (POST_extract f)).1 with
     | Ok (Fulfilled data) =>
         sent r = [existT _ (POST_extract f); existT _ GET_invoices]
         /\ file (final r) = None
         /\ match (srv (srv w _ (POST_extract f)).2 _ GET_invoices).1 with
            | Ok (Fulfilled body) =>
                invoices (final r) = default [] (data_invoices body)
                /\ msgType (final r) = success
                /\ msg (final r)
                   = "✓ Extracted invoice " ++ data_invoice_no data
                     ++ " • Total ₹" ++ toFixed (data_total data) 2%nat
            | _ =>
                invoices (final r) = invoices s
                /\ msgType (final r) = error
                /\ msg (final r) = "Failed to load invoices"
            end
     | _ =>
         sent r = [existT _ (POST_extract f)]
         /\ file (final r) = Some f
         /\ invoices (final r) = invoices s
         /\ msgType (final r) = error
         /\ msg (final r) <> ""
     end.
Proof.
  intros Hfile Hsize. cbv zeta. unfold onUpload. rewrite Hfile.
  destruct (N.ltb_spec (5 * 1024 * 1024) (size f)) as [Hgt | _]; [lia |].
  cbn [run].
  destruct (srv w ExtractBody (POST_extract f)) as [res w1].
  cbn [fst snd].
  destruct res as [m | [m | err] | [m | data]]; cbn; rewrite ?Hfile;
    try (repeat split; try reflexivity; apply upload_failed_nonempty).
  destruct (srv w1 InvoicesBody GET_invoices) as [res2 w2]. cbn [fst].
  destruct res2 as [m | j | [m | body]]; cbn; repeat split; reflexivity.
Qed.

Lemma onUpload_past_guards_witness :
  busy (final (run apply offline
                 (onUpload (fun _ _ => "") (picked {| name := "a.png"; size := 5242880 |}))
                 (picked {| name := "a.png"; size := 5242880 |}) tt))
  = false
  /\ sent (run apply offline
             (onUpload (fun _ _ => "") (picked {| name := "a.png"; size := 5242880 |}))
             (picked {| name := "a.png"; size := 5242880 |}) tt)
     = [existT _ (POST_extract {| name := "a.png"; size := 5242880 |})].
Proof.
  pose proof (onUpload_past_guards (fun _ _ => "")
                (picked {| name := "a.png"; size := 5242880 |})
                {| name := "a.png"; size := 5242880 |} unit offline tt eq_refl)
    as H.
  cbv zeta in H. cbn [offline fst] in H.
  destruct H as (Hbusy & Hsent & _); [cbn; lia |].
  split; [exact Hbusy | exact Hsent].
Defined.

(** X13. Whatever the state and the server, a click on Extract leaves a
    message that is not empty, marked as an error or as a success. *)
Theorem onUpload_always_reports (toFixed : number -> nat -> string) (s : state)
    (W : Type) (srv : server W request) (w : W) :
  msg (final (run apply srv (onUpload toFixed s) s w)) <> ""
  /\ msgType (final (run apply srv (onUpload toFixed s) s w)) <> info.
Proof.
  unfold onUpload. destruct (file s) as [f |] eqn:Hfile; [| split; discriminate].
  destruct (5 * 1024 * 1024 <? size f)%N; [split; discriminate |].
  cbn [run].
  destruct (srv w ExtractBody (POST_extract f)) as [res w1].
  destruct res as [m | [m | err] | [m | data]]; cbn;
    try (split; [apply upload_failed_nonempty | discriminate]).
  destruct (srv w1 InvoicesBody GET_invoices) as [res2 w2].
  destruct res2 as [m | j | [m | body]]; cbn; split; discriminate.
Qed.

End HomeMore.

Module AnalyticsMore.
Import JS Async Analytics AnalyticsView.

(** X14. The analytics page sends one request and then leaves its loading
    screen: for the charts when the summary arrived, and otherwise for a
    message that is not empty. *)
Theorem fetchAnalytics_screen (W : Type) (srv : server W request) (w : W) :
  sent (run apply srv fetchAnalytics initial w) = [existT _ GET_analytics_summary]
  /\ match (srv w _ GET_analytics_summary).1 with
     | Ok (Fulfilled d) =>
         render (final (run apply srv fetchAnalytics initial w)) = Charts d
     | _ =>
         exists message,
           render (final (run apply srv fetchAnalytics initial w))
           = Unavailable message
           /\ message <> ""
     end.
Proof.
  unfold fetchAnalytics. cbn [run].
  destruct (srv w AnalyticsResponse GET_analytics_summary) as [res w'].
  cbn [fst].
  destruct res as [m | j | [m | d]]; cbn; (split; [reflexivity |]);
    try reflexivity; eexists; (split; [reflexivity |]);
    try discriminate; destruct m; discriminate.
Qed.

End AnalyticsMore.

Module InvoiceReviewRunsFacts.
Import InvoiceReview InvoiceReviewRuns.

Lemma edit_items_length (invoice next : InvoiceDetail) (e : item_edit) :
  edit_items (Some invoice) e = SetInvoice next ->
  match e with
  | Add => length (items next) = S (length (items invoice))
  | Remove index =>
      length (items invoice) <> 1%nat
      /\ length (items next)
         = if decide (index < length (items invoice))%nat
           then (length (items invoice) - 1)%nat
           else length (items invoice)
  | Update _ _ _ => length (items next) = length (items invoice)
  end.
Proof.
  destruct e as [| index | index field value]; cbn; intros Hrun.
  - injection Hrun as <-. cbn. rewrite length_app. cbn. lia.
  - destruct (Nat.eqb_spec (length (items invoice)) 1) as [| Hn1];
      [discriminate |].
    injection Hrun as <-. cbn. split; [exact Hn1 |].
    rewrite InvoiceReviewFacts.js_filter_removes, length_app, length_take, length_drop.
    destruct (decide _); lia.
  - destruct (items invoice !! index); [| discriminate].
    injection Hrun as <-. cbn. apply length_insert.
Qed.

(** X7. However many items are added, removed and edited, one after the
    other, a list that had an item keeps one.  Either an [updateItem] in
    the sequence addresses an index past the end of the list it meets
    (none of the page's inputs does), and the sequence is followed up to
    there; or the list ends with no fewer items than one and no more than
    it had plus the number of edits. *)
Theorem edit_all_keeps_an_item (invoice : InvoiceDetail) (es : list item_edit) :
  items invoice <> [] ->
  match edit_all invoice es with
  | Some final =>
      (1 <= length (items final) <= length (items invoice) + length es)%nat
  | None =>
      exists before index field value rest current,
        es = (before ++ Update index field value :: rest)%list
        /\ edit_all invoice before = Some current
        /\ (1 <= length (items current) <= index)%nat
  end.
Proof.
  revert invoice. induction es as [| e es IH]; intros invoice Hne.
  - cbn. destruct (items invoice); [congruence | cbn; lia].
  - assert (Hpos : (1 <= length (items invoice))%nat)
      by (destruct (items invoice); [congruence | cbn; lia]).
    cbn [edit_all].
    destruct (edit_items (Some invoice) e) as [next | |] eqn:He; cbn [after].
    + pose proof (edit_items_length _ _ _ He) as Hlen.
      assert (Hnext : (1 <= length (items next) <= S (length (items invoice)))%nat).
      { destruct e; [lia | | lia].
        destruct Hlen as [Hn1 Hlen]. destruct (decide _); lia. }
      assert (Hne' : items next <> [])
        by (intros Hnil; rewrite Hnil in Hnext; cbn in Hnext; lia).
      specialize (IH next Hne').
      destruct (edit_all next es) as [final |].
      * cbn [length]. lia.
      * destruct IH as (before & index & field & value & rest & current
                        & -> & Hbefore & Hpast).
        exists (e :: before), index, field, value, rest, current.
        split; [reflexivity |]. split; [| exact Hpast].
        cbn [edit_all]. rewrite He. exact Hbefore.
    + specialize (IH invoice Hne).
      destruct (edit_all invoice es) as [final |].
      * cbn [length]. lia.
      * destruct IH as (before & index & field & value & rest & current
                        & -> & Hbefore & Hpast).
        exists (e :: before), index, field, value, rest, current.
        split; [reflexivity |]. split; [| exact Hpast].
        cbn [edit_all]. rewrite He. exact Hbefore.
    + destruct e as [| index | index field value]; cbn in He.
      * discriminate.
      * destruct (Nat.eqb (length (items invoice)) 1); discriminate.
      * destruct (items invoice !! index) eqn:Hi; [discriminate |].
        exists [], index, field, value, es, invoice.
        split; [reflexivity |]. split; [reflexivity |].
        apply lookup_ge_None in Hi. lia.
Qed.

Lemma edit_all_keeps_an_item_witness :
  (exists final,
      edit_all seed_invoice [Remove 0; Remove 0; Remove 0; Add] = Some final
      /\ (1 <= length (items final) <= 6)%nat)
  /\ edit_all seed_invoice [Add; Update 4 Item_sku "Z"] = None.
Proof.
  split; [| reflexivity].
  eexists. split; [reflexivity |].
  exact (edit_all_keeps_an_item seed_invoice [Remove 0; Remove 0; Remove 0; Add]
           ltac:(discriminate)).
Defined.

End InvoiceReviewRunsFacts.

Module SchemaMore.
Import Schema.

Lemma refers_nobody fk child : refers fk [] child = false.
Proof. unfold refers. cbn. apply andb_false_r. Qed.

Lemma filter_all {A : Type} (f : A -> bool) (l : list A) :
  (forall x, In x l -> f x = true) -> List.filter f l = l.
Proof.
  induction l as [| x l IH]; intros H; cbn; [reflexivity |].
  rewrite H by now left. f_equal. apply IH. intros y Hy. apply H. now right.
Qed.

Lemma filter_none {A : Type} (f : A -> bool) (l : list A) :
  (forall x, In x l -> f x = false) -> List.filter f l = [].
Proof.
  induction l as [| x l IH]; intros H; cbn; [reflexivity |].
  rewrite H by now left. apply IH. intros y Hy. apply H. now right.
Qed.

(** X15. Deleting an invoice that is not there changes no row of any table;
    so a second delete of the same invoice changes nothing either. *)
Theorem delete_invoice_absent (db : gmap string (list (gmap string value))) (k : Z) :
  ((forall r, In r (rows db "invoices") -> cell r "id" <> Int k) ->
   exists db',
     delete_invoice k db = Some db' /\ forall t, rows db' t = rows db t)
  /\ (forall db1,
        delete_invoice k db = Some db1 ->
        exists db2,
          delete_invoice k db1 = Some db2 /\ forall t, rows db2 t = rows db1 t).
Proof.
  assert (Habsent : forall d,
             (forall r, In r (rows d "invoices") -> cell r "id" <> Int k) ->
             exists d',
               delete_invoice k d = Some d' /\ forall t, rows d' t = rows d t).
  { intros d Hno. unfold delete_invoice. rewrite SchemaFacts.delete_from_invoices.
    eexists. split; [reflexivity |].
    assert (Hdead : List.filter (id_is k) (rows d "invoices") = []).
    { apply filter_none. intros r Hr. unfold id_is.
      apply bool_decide_eq_false. now apply Hno. }
    rewrite Hdead. intros t.
    destruct (decide (t = "invoices")) as [-> | Hti].
    - rewrite SchemaFacts.rows_insert_eq.
      apply filter_all. intros r Hr. unfold id_is.
      apply negb_true_iff, bool_decide_eq_false. now apply Hno.
    - rewrite SchemaFacts.rows_insert_ne by congruence.
      destruct (decide (t = "invoice_items")) as [-> | Htt].
      + rewrite SchemaFacts.rows_insert_eq. apply filter_all.
        intros r _. now rewrite refers_nobody.
      + now rewrite SchemaFacts.rows_insert_ne by congruence. }
  split; [apply Habsent |].
  intros db1 Hrun. apply Habsent.
  unfold delete_invoice in Hrun. rewrite SchemaFacts.delete_from_invoices in Hrun.
  injection Hrun as <-. rewrite SchemaFacts.rows_insert_eq.
  intros r Hr. apply filter_In in Hr as [_ Hr].
  unfold id_is in Hr. now apply negb_true_iff, bool_decide_eq_false in Hr.
Qed.

Lemma delete_invoice_absent_witness :
  exists db',
    delete_invoice 7 (seed "2025-10-01 00:00:00") = Some db'
    /\ rows db' "invoice_items" = rows (seed "2025-10-01 00:00:00") "invoice_items".
Proof.
  destruct (proj1 (delete_invoice_absent (seed "2025-10-01 00:00:00") 7))
    as (db' & Hrun & Hrows).
  - intros r [<- | []]. vm_compute. discriminate.
  - exists db'. split; [exact Hrun | apply Hrows].
Defined.

(** What [DELETE FROM t] comes to for a table that no key references. *)
Lemma delete_from_unreferenced t victim db :
  referencing schema_sql t = [] ->
  DELETE_FROM schema_sql t victim db
  = Some (<[t := List.filter (fun r => negb (victim r)) (rows db t)]> db).
Proof.
  intros Href. unfold DELETE_FROM. cbn [delete_rows]. rewrite Href. reflexivity.
Qed.

(** X16. Deleting vendors, or items, deletes nothing else: no cascade runs
    from them.  The statement succeeds whatever rows it selects, the rows
    of the other tables stay (an invoice outlives its items and its
    vendor), and the database stays within the constraints. *)
Theorem delete_vendors_or_items (t : string) (victim : gmap string value -> bool)
    (db : gmap string (list (gmap string value))) :
  t = "vendors" \/ t = "invoice_items" ->
  satisfies schema_sql db = true ->
  exists db',
    DELETE_FROM schema_sql t victim db = Some db'
    /\ rows db' t = List.filter (fun r => negb (victim r)) (rows db t)
    /\ (forall t', t' <> t -> rows db' t' = rows db t')
    /\ satisfies schema_sql db' = true.
Proof.
  intros Ht Hsat.
  rewrite delete_from_unreferenced by (destruct Ht as [-> | ->]; reflexivity).
  eexists. split; [reflexivity |].
  split; [apply SchemaFacts.rows_insert_eq |].
  split; [intros t' Ht'; apply SchemaFacts.rows_insert_ne; congruence |].
  apply SchemaFacts.satisfies_schema_sql in Hsat as (Hv & Hi & Hit & Hfk).
  apply SchemaFacts.satisfies_schema_sql.
  destruct Ht as [-> | ->].
  - rewrite SchemaFacts.rows_insert_eq.
    rewrite !SchemaFacts.rows_insert_ne by discriminate.
    split; [now apply SchemaFacts.columns_hold_filter |].
    split; [exact Hi |]. split; [exact Hit |].
    unfold key_resolves in *. cbn [fk_table] in *.
    now rewrite SchemaFacts.rows_insert_ne by discriminate.
  - rewrite SchemaFacts.rows_insert_eq.
    rewrite !SchemaFacts.rows_insert_ne by discriminate.
    split; [exact Hv |]. split; [exact Hi |].
    split; [now apply SchemaFacts.columns_hold_filter |].
    apply SchemaFacts.forallb_filter.
    unfold key_resolves in *. cbn [fk_table] in *.
    now rewrite SchemaFacts.rows_insert_ne by discriminate.
Qed.

Lemma delete_vendors_or_items_witness :
  exists db',
    DELETE_FROM schema_sql "vendors" (fun _ => true) (seed "2025-10-01 00:00:00")
    = Some db'
    /\ rows db' "vendors" = []
    /\ rows db' "invoices" = rows (seed "2025-10-01 00:00:00") "invoices".
Proof.
  destruct (delete_vendors_or_items "vendors" (fun _ => true)
              (seed "2025-10-01 00:00:00") (or_introl eq_refl))
    as (db' & Hrun & Hrows & Hother & _); [vm_compute; reflexivity |].
  exists db'. split; [exact Hrun |]. split.
  - rewrite Hrows. vm_compute. reflexivity.
  - apply Hother. discriminate.
Defined.

(** X17. The schema can be loaded as it is written: table and column names
    are not repeated, a foreign key points at the primary key of a table
    created before its own and has the type of that key, and an index is
    over columns of its table. *)
Theorem schema_sql_resolves :
  NoDup (map table_name (tables schema_sql))
  /\ (forall tb, In tb (tables schema_sql) -> NoDup (map col_name (columns tb)))
  /\ (forall tb fk,
        In tb (tables schema_sql) -> In fk (foreign_keys tb) ->
        exists earlier parent later key col,
          tables schema_sql = (earlier ++ parent :: later)%list
          /\ In tb later
          /\ table_name parent = fk_table fk
          /\ find_column schema_sql (fk_table fk) (fk_references fk) = Some key
          /\ PRIMARY_KEY key = true
          /\ find_column schema_sql (table_name tb) (fk_column fk) = Some col
          /\ col_type col = col_type key)
  /\ (forall ix c,
        In ix (indexes schema_sql) -> In c (index_columns ix) ->
        is_Some (find_column schema_sql (index_table ix) c)).
Proof.
  split; [| split; [| split]].
  - cbn. repeat (apply NoDup_cons; split; [rewrite !list_elem_of_In; cbn; intuition discriminate |]).
    apply NoDup_nil_2.
  - intros tb [<- | [<- | [<- | []]]]; cbn;
      repeat (apply NoDup_cons; split;
              [rewrite !list_elem_of_In; cbn; intuition discriminate |]);
      apply NoDup_nil_2.
  - intros tb fk [<- | [<- | [<- | []]]] Hfk; cbn in Hfk; try contradiction.
    destruct Hfk as [<- | []].
    exists [vendors], invoices, [invoice_items]. eexists. eexists.
    cbn. repeat split; try reflexivity. now left.
  - intros ix c [<- | [<- | []]] Hc; cbn in Hc.
    + destruct Hc as [<- | [<- | []]]; cbn; eauto.
    + destruct Hc as [<- | []]; cbn; eauto.
Qed.

Lemma schema_sql_resolves_witness :
  is_Some (find_column schema_sql "invoice_items" "sku").
Proof.
  apply (proj2 (proj2 (proj2 schema_sql_resolves))
           {| index_name := "idx_items_sku"; index_table := "invoice_items";
              index_columns := ["sku"] |} "sku").
  - right. left. reflexivity.
  - left. reflexivity.
Defined.

(** X18. A database within the constraints of the schema holds no status
    but NULL and the two that the invoice page knows. *)
Theorem stored_status (db : gmap string (list (gmap string value)))
    (r : gmap string value) :
  satisfies schema_sql db = true ->
  In r (rows db "invoices") ->
  cell r "status" = NULL
  \/ exists s : InvoiceReview.Status,
       cell r "status" = Text (InvoiceReview.status_text s).
Proof.
  intros Hsat Hr.
  apply SchemaFacts.satisfies_schema_sql in Hsat as (_ & Hi & _).
  unfold columns_hold in Hi. rewrite forallb_forall in Hi.
  assert (Hcol : In {| col_name := "status"; col_type := ENUM ["PENDING"; "APPROVED"];
                       NOT_NULL := false; AUTO_INCREMENT := false;
                       PRIMARY_KEY := false;
                       DEFAULT := Some (DEFAULT_text "PENDING") |}
                    (columns invoices)) by (cbn; tauto).
  apply Hi, andb_true_iff in Hcol as [Hcells _].
  rewrite forallb_forall in Hcells. specialize (Hcells r Hr).
  unfold column_holds in Hcells. cbn [col_type col_name] in Hcells.
  apply andb_true_iff in Hcells as [Hadmits _].
  destruct (cell r "status") as [| z | text | u sc]; cbn in Hadmits;
    try discriminate; [now left |].
  right. apply bool_decide_eq_true, list_elem_of_In in Hadmits.
  destruct Hadmits as [<- | [<- | []]];
    [now exists InvoiceReview.PENDING | now exists InvoiceReview.APPROVED].
Qed.

Lemma stored_status_witness :
  exists r,
    rows (seed "2025-10-01 00:00:00") "invoices" = [r]
    /\ (cell r "status" = NULL
        \/ exists s : InvoiceReview.Status,
             cell r "status" = Text (InvoiceReview.status_text s)).
Proof.
  eexists. split; [reflexivity |].
  apply (stored_status (seed "2025-10-01 00:00:00")).
  - vm_compute. reflexivity.
  - left. reflexivity.
Defined.

End SchemaMore.
